(** * class-scheduler: the weekly schedule calendar

    A shallow embedding of the scheduling logic of the repository's
    [ScheduleCalendar] React component, in its two versions:

    - the version with multi-select facet filters and an overridable
      conflict dialog (module [Multi]);
    - [src/ScheduleCalendar.jsx], with single-value filters and a blocking
      conflict notice (module [ScheduleCalendar]).

    The helpers above the component ([DAY_MAP], [getWeekStart],
    [toTimeString], [rowsToEvents], [timesOverlap]) are the same text in both
    files and are embedded once.

    Modelling conventions.
    - A JavaScript number is an integer or NaN: [num := option Z].
    - A [Date] is its time value read on the local wall clock, in
      milliseconds, or Invalid Date: [Date := option Z].  Every accessor the
      code uses ([getDay], [getDate], [getHours], [setHours], [setDate], the
      relational operators) works on local time; the local zone is taken at a
      constant offset from UTC, and time values stay inside the range
      [TimeClip] accepts.
    - Database values that the code only copies, compares with [===] or
      prints are [jsval]: null, an integer number or a string.
    - [Number] is embedded on strings of decimal digits, the form in which
      the store returns the components of a time of day; on any other string
      the embedding answers NaN, and the theorems that depend on a parsed
      time speak about time strings whose components are digit strings
      ([clock_of]).
    - A string is split into characters as [list ascii]. *)

From Stdlib Require Import ZArith List String Ascii Bool Lia Permutation.
From Stdlib Require Import DecimalString Sorted.
Import ListNotations.
Open Scope string_scope.
Open Scope Z_scope.

(** ** JavaScript values *)

Definition num := option Z.
Definition NaN : num := None.

Inductive jsval :=
| JNull
| JNum (z : Z)
| JStr (s : string).

(** [a === b] on database values. *)
Definition strict_eq (a b : jsval) : bool :=
  match a, b with
  | JNull, JNull => true
  | JNum x, JNum y => x =? y
  | JStr s, JStr t => String.eqb s t
  | _, _ => false
  end.

(** [a !== b] on numbers: NaN differs from everything, itself included. *)
Definition num_strict_neq (a b : num) : bool :=
  match a, b with
  | Some x, Some y => negb (x =? y)
  | _, _ => true
  end.

Definition string_of_Z (z : Z) : string := NilZero.string_of_int (Z.to_int z).

(** [String(v)] and the conversion a template literal applies. *)
Definition ToString (v : jsval) : string :=
  match v with
  | JNull => "null"
  | JNum z => string_of_Z z
  | JStr s => s
  end.

Definition num_to_string (n : num) : string :=
  match n with
  | Some z => string_of_Z z
  | None => "NaN"
  end.

(** [s.padStart(2, '0')] *)
Definition padStart2 (s : string) : string :=
  match String.length s with
  | O => "00"
  | S O => "0" ++ s
  | _ => s
  end.

(** [a.includes(v)] *)
Definition includes (a : list jsval) (v : jsval) : bool :=
  existsb (strict_eq v) a.

(** [a.join(sep)] on an array of strings. *)
Fixpoint join (sep : string) (a : list string) : string :=
  match a with
  | [] => EmptyString
  | [s] => s
  | s :: rest => s ++ sep ++ join sep rest
  end.

(** [s.split(':')] *)
Fixpoint split_colon_aux (s acc : string) : list string :=
  match s with
  | EmptyString => [acc]
  | String c rest =>
      if Ascii.eqb c ":" then acc :: split_colon_aux rest EmptyString
      else split_colon_aux rest (acc ++ String c EmptyString)
  end.

Definition split_colon (s : string) : list string :=
  split_colon_aux s EmptyString.

(** [s.split('')] *)
Definition split_chars (s : string) : list ascii := list_ascii_of_string s.

Definition digit_of (c : ascii) : option Z :=
  let n := Z.of_N (N_of_ascii c) in
  if (48 <=? n) && (n <=? 57) then Some (n - 48) else None.

Fixpoint digits_value (s : string) (acc : Z) : num :=
  match s with
  | EmptyString => Some acc
  | String c rest =>
      match digit_of c with
      | Some d => digits_value rest (10 * acc + d)
      | None => NaN
      end
  end.

(** [Number(s)] on a string of decimal digits (the empty string is 0). *)
Definition Number (s : string) : num := digits_value s 0.

(** [x || 0] where [x] is a number or undefined *)
Definition or_zero (x : num) : num :=
  match x with
  | Some z => Some z
  | None => Some 0
  end.

(** Element [i] of a destructured array, converted by [ToNumber] when it is
    passed on: a missing element is undefined, hence NaN. *)
Definition component (l : list num) (i : nat) : num :=
  match nth_error l i with
  | Some n => n
  | None => NaN
  end.

(** ** Dates *)

Definition Date := option Z.

Definition msPerSecond : Z := 1000.
Definition msPerMinute : Z := 60000.
Definition msPerHour : Z := 3600000.
Definition msPerDay : Z := 86400000.

Definition Day (t : Z) : Z := t / msPerDay.
Definition TimeWithinDay (t : Z) : Z := t mod msPerDay.
Definition WeekDay (t : Z) : Z := (Day t + 4) mod 7.
Definition HourFromTime (t : Z) : Z := (t / msPerHour) mod 24.
Definition MinFromTime (t : Z) : Z := (t / msPerMinute) mod 60.
Definition SecFromTime (t : Z) : Z := (t / msPerSecond) mod 60.

Definition MakeTime (h m s ms : Z) : Z :=
  h * msPerHour + m * msPerMinute + s * msPerSecond + ms.
Definition MakeDate (day time : Z) : Z := day * msPerDay + time.

(** Day of the month (1..31) of a time value, in the proleptic Gregorian
    calendar. *)
Definition DateFromTime (t : Z) : Z :=
  let z := Day t + 719468 in
  let doe := z mod 146097 in
  let yoe := (doe - doe / 1460 + doe / 36524 - doe / 146096) / 365 in
  let doy := doe - (365 * yoe + yoe / 4 - yoe / 100) in
  let mp := (5 * doy + 2) / 153 in
  doy - (153 * mp + 2) / 5 + 1.

(** Day number of the first day of the month that contains [t]:
    [MakeDay(YearFromTime(t), MonthFromTime(t), 1)]. *)
Definition MonthStartDay (t : Z) : Z := Day t - (DateFromTime t - 1).

Definition getDay (d : Date) : num := option_map WeekDay d.
Definition getDate (d : Date) : num := option_map DateFromTime d.
Definition getHours (d : Date) : num := option_map HourFromTime d.
Definition getMinutes (d : Date) : num := option_map MinFromTime d.
Definition getSeconds (d : Date) : num := option_map SecFromTime d.

(** [d.setDate(n)]: day [n] of [d]'s month, the time within the day kept;
    [n] outside the month runs over into the neighbouring months. *)
Definition setDate (d : Date) (n : num) : Date :=
  match d, n with
  | Some t, Some dt => Some (MakeDate (MonthStartDay t + dt - 1) (TimeWithinDay t))
  | _, _ => None
  end.

(** [d.setHours(h, m, s, ms)] *)
Definition setHours (d : Date) (h m s ms : num) : Date :=
  match d, h, m, s, ms with
  | Some t, Some h, Some m, Some s, Some ms =>
      Some (MakeDate (Day t) (MakeTime h m s ms))
  | _, _, _, _, _ => None
  end.

Definition num_add (a b : num) : num :=
  match a, b with
  | Some x, Some y => Some (x + y)
  | _, _ => NaN
  end.

Definition num_sub (a b : num) : num :=
  match a, b with
  | Some x, Some y => Some (x - y)
  | _, _ => NaN
  end.

Definition num_mod (a b : num) : num :=
  match a, b with
  | Some x, Some y => if y =? 0 then NaN else Some (Z.rem x y)
  | _, _ => NaN
  end.

(** [a < b] and [a > b] on dates: false as soon as one is invalid. *)
Definition date_lt (a b : Date) : bool :=
  match a, b with
  | Some x, Some y => x <? y
  | _, _ => false
  end.

Definition date_gt (a b : Date) : bool := date_lt b a.

(** ** Helpers of the component file *)

(** [DAY_MAP[code]]; a character that is not a key gives undefined. *)
Definition DAY_MAP (code : ascii) : option Z :=
  if Ascii.eqb code "M" then Some 1
  else if Ascii.eqb code "T" then Some 2
  else if Ascii.eqb code "W" then Some 3
  else if Ascii.eqb code "R" then Some 4
  else if Ascii.eqb code "F" then Some 5
  else None.

Definition getWeekStart (date : Date) : Date :=
  let d := date in
  let day := getDay d in
  let diff := num_mod (num_add day (Some 6)) (Some 7) in
  let d := setDate d (num_sub (getDate d) diff) in
  let d := setHours d (Some 0) (Some 0) (Some 0) (Some 0) in
  d.

Definition toTimeString (date : Date) : string :=
  let hh := padStart2 (num_to_string (getHours date)) in
  let mm := padStart2 (num_to_string (getMinutes date)) in
  let ss := padStart2 (num_to_string (getSeconds date)) in
  hh ++ ":" ++ mm ++ ":" ++ ss.

(** A row of [section_calendar_view]. *)
Record Row := {
  section_id : jsval;
  pattern_slot_id : jsval;
  time_slot_id : jsval;
  day_code : option string;
  start_time : string;
  end_time : string;
  course_code : jsval;
  instructor_name : jsval;
  room_name : jsval;
  grade_level : jsval
}.

(** A calendar event; [allDay] is only present on the moved copy that
    [handleEventDrop] builds. *)
Record Event := {
  id : string;
  sectionId : jsval;
  patternSlotId : jsval;
  timeSlotId : jsval;
  title : jsval;
  professor : jsval;
  room : jsval;
  gradeLevel : jsval;
  start : Date;
  end_ : Date;
  allDay : option bool
}.

(** [row.day_code ? row.day_code.split('') : ['M']]: null and the empty
    string are both falsy. *)
Definition day_codes (row : Row) : list ascii :=
  match day_code row with
  | None => ["M"%char]
  | Some EmptyString => ["M"%char]
  | Some s => split_chars s
  end.

(** The date with the time of day [time] set on it:
    [const [h, m, s] = time.split(':').map(Number)] followed by
    [d.setHours(h, m, s || 0, 0)]. *)
Definition at_time (baseDate : Date) (time : string) : Date :=
  let parts := map Number (split_colon time) in
  setHours baseDate (component parts 0) (component parts 1)
    (or_zero (component parts 2)) (Some 0).

(** The body of the inner [forEach] of [rowsToEvents]: the events pushed for
    one day code of one row (none when the code is not in [DAY_MAP]). *)
Definition events_of_code (monday : Date) (row : Row) (code : ascii)
  : list Event :=
  match DAY_MAP code with
  | None => []
  | Some weekday =>
      let baseDate := setDate monday (num_add (getDate monday) (Some (weekday - 1))) in
      let start := at_time baseDate (start_time row) in
      let end_ := at_time baseDate (end_time row) in
      [ {| id := ToString (section_id row) ++ "-" ++ String code EmptyString;
           sectionId := section_id row;
           patternSlotId := pattern_slot_id row;
           timeSlotId := time_slot_id row;
           title := course_code row;
           professor := instructor_name row;
           room := room_name row;
           gradeLevel := JStr (ToString (grade_level row));
           start := start;
           end_ := end_;
           allDay := None |} ]
  end.

Definition events_of_row (monday : Date) (row : Row) : list Event :=
  flat_map (events_of_code monday row) (day_codes row).

(** [rowsToEvents(rows)], with the value of [new Date()] as [now]. *)
Definition rowsToEvents (now : Date) (rows : list Row) : list Event :=
  let monday := getWeekStart now in
  flat_map (events_of_row monday) rows.

Definition timesOverlap (startA endA startB endB : Date) : bool :=
  date_lt startA endB && date_gt endA startB.

(** ** The drop handler: parts common to both versions *)

Definition dq : string := String (ascii_of_nat 34) EmptyString.
Definition nl : string := String (ascii_of_nat 10) EmptyString.

(** [{ ...e, start: newStart, end: newEnd }] *)
Definition with_times (e : Event) (newStart newEnd : Date) : Event :=
  {| id := id e;
     sectionId := sectionId e;
     patternSlotId := patternSlotId e;
     timeSlotId := timeSlotId e;
     title := title e;
     professor := professor e;
     room := room e;
     gradeLevel := gradeLevel e;
     start := newStart;
     end_ := newEnd;
     allDay := allDay e |}.

(** [{ ...event, start, end, allDay: isAllDay }] *)
Definition moved (event : Event) (dropStart dropEnd : Date) (isAllDay : bool)
  : Event :=
  {| id := id event;
     sectionId := sectionId event;
     patternSlotId := patternSlotId event;
     timeSlotId := timeSlotId event;
     title := title event;
     professor := professor event;
     room := room event;
     gradeLevel := gradeLevel event;
     start := dropStart;
     end_ := dropEnd;
     allDay := Some isAllDay |}.

Definition professor_conflict (movedEvent other : Event) : string :=
  "Professor conflict: " ++ ToString (professor movedEvent) ++ " also has "
    ++ dq ++ ToString (title other) ++ dq ++ " at this time.".

Definition room_conflict (movedEvent other : Event) : string :=
  "Room conflict: " ++ ToString (room movedEvent) ++ " is already used by "
    ++ dq ++ ToString (title other) ++ dq ++ " at this time.".

Definition grade_conflict (movedEvent other : Event) : string :=
  "Grade-level conflict: " ++ ToString (gradeLevel movedEvent)
    ++ " already has " ++ dq ++ ToString (title other) ++ dq
    ++ " at this time.".

(** The body of [events.forEach((other) => ...)]: what one [other] pushes on
    [conflicts]. *)
Definition conflicts_with (movedEvent other : Event) : list string :=
  if String.eqb (id other) (id movedEvent) then []
  else
    let overlap :=
      timesOverlap (start movedEvent) (end_ movedEvent)
                   (start other) (end_ other) in
    if negb overlap then []
    else
      ((if strict_eq (professor movedEvent) (professor other)
        then [professor_conflict movedEvent other] else [])
       ++ (if strict_eq (room movedEvent) (room other)
           then [room_conflict movedEvent other] else [])
       ++ (if strict_eq (gradeLevel movedEvent) (gradeLevel other)
           then [grade_conflict movedEvent other] else []))%list.

(** [conflicts] after the loop over [events]. *)
Definition detect_conflicts (events : list Event) (movedEvent : Event)
  : list string :=
  flat_map (conflicts_with movedEvent) events.

(** The function given to [setEvents] on success: [prev.map((e) => ...)]. *)
Definition apply_move (event : Event) (dropStart dropEnd : Date)
  (prev : list Event) : list Event :=
  let sh := getHours dropStart in
  let sm := getMinutes dropStart in
  let ss := getSeconds dropStart in
  let eh := getHours dropEnd in
  let em := getMinutes dropEnd in
  let es := getSeconds dropEnd in
  map (fun e =>
         if negb (strict_eq (timeSlotId e) (timeSlotId event)) then e
         else
           let newStart := setHours (start e) sh sm (or_zero ss) (Some 0) in
           let newEnd := setHours (end_ e) eh em (or_zero es) (Some 0) in
           with_times e newStart newEnd)
      prev.

(** What the handler does to the outside, in order. *)
Inductive Effect :=
| Alert (message : string)
| Confirm (message : string) (answer : bool)
| StoreUpdate (time_slot : jsval) (new_start new_end : string)
              (error : option string)
| ConsoleError (message : string) (error : string).

(** The collaborators: the user in front of [window.confirm] and the
    [time_slot] table behind [supabase ... update ... eq]; the update answers
    with an error or with none. *)
Record Env := {
  confirm : string -> bool;
  update_time_slot : jsval -> string -> string -> option string
}.

(** One run of the handler: the effects, and the updater given to
    [setEvents] when it is called. *)
Record Outcome := {
  effects : list Effect;
  setEvents : option (list Event -> list Event)
}.

(** The occurrence set after the run: React applies the updater to the
    current set. *)
Definition events_after (o : Outcome) (current : list Event) : list Event :=
  match setEvents o with
  | Some f => f current
  | None => current
  end.

Definition day_notice : string :=
  "For now you can only change the time, not the day of the week.".

Definition is_store_update (e : Effect) : bool :=
  match e with
  | StoreUpdate _ _ _ _ => true
  | _ => false
  end.

Definition is_confirm (e : Effect) : bool :=
  match e with
  | Confirm _ _ => true
  | _ => false
  end.

(** ** Facet lists: parts common to both versions *)

(** [Array.from(new Set(a))] with the values in [seen] already in the set:
    a set keeps the first occurrence of each value, in insertion order. *)
Fixpoint distinct_from (seen a : list jsval) : list jsval :=
  match a with
  | [] => []
  | v :: rest =>
      if includes seen v then distinct_from seen rest
      else v :: distinct_from (v :: seen) rest
  end.

Definition distinct (a : list jsval) : list jsval := distinct_from [] a.

(** [a.sort()] with the default comparison: the elements are compared by
    their string forms, code unit by code unit, and the sort is stable.  An
    element goes in front of the first element that is not smaller, so equal
    string forms keep the order they had. *)
Fixpoint insert_sorted (x : jsval) (sorted : list jsval) : list jsval :=
  match sorted with
  | [] => [x]
  | y :: rest =>
      if String.leb (ToString x) (ToString y) then x :: y :: rest
      else y :: insert_sorted x rest
  end.

Definition default_sort (a : list jsval) : list jsval :=
  fold_right insert_sorted [] a.

(** ** The version with multi-select filters and an overridable dialog *)

Module Multi.

Record State := {
  events : list Event;
  professorFilter : list jsval;
  roomFilter : list jsval;
  gradeFilter : list jsval
}.

(** [toggleFilterValue(value, currentArray, setFn)], as the array that
    [setFn] leaves in the state when the state held [prev]. *)
Definition toggleFilterValue (value : jsval) (prev : list jsval)
  : list jsval :=
  if strict_eq value (JStr "__ALL__") then []
  else
    match prev with
    | [] => [value]
    | _ =>
        if includes prev value
        then filter (fun v => negb (strict_eq v value)) prev
        else (prev ++ [value])%list
    end.

Definition professors (st : State) : list jsval :=
  default_sort (distinct (map professor (events st))).

Definition rooms (st : State) : list jsval :=
  default_sort (distinct (map room (events st))).

Definition grades (st : State) : list jsval :=
  default_sort (distinct (map gradeLevel (events st))).

Definition keeps (st : State) (e : Event) : bool :=
  if (0 <? Z.of_nat (List.length (professorFilter st)))
     && negb (includes (professorFilter st) (professor e)) then false
  else if (0 <? Z.of_nat (List.length (roomFilter st)))
          && negb (includes (roomFilter st) (room e)) then false
  else if (0 <? Z.of_nat (List.length (gradeFilter st)))
          && negb (includes (gradeFilter st) (gradeLevel e)) then false
  else true.

Definition filteredEvents (st : State) : list Event :=
  filter (keeps st) (events st).

Definition override_prompt : string :=
  nl ++ nl ++ "Click " ++ dq ++ "OK" ++ dq
     ++ " to override and move the class anyway, or " ++ dq ++ "Cancel" ++ dq
     ++ " to keep the original time.".

Definition save_failure_notice : string :=
  "There was a problem saving this change in the database, so the calendar was not updated.".

(** From [const newStartStr] to the end of [handleEventDrop]; [before] holds
    the effects already performed. *)
Definition persist (env : Env) (event : Event) (dropStart dropEnd : Date)
  (before : list Effect) : Outcome :=
  let newStartStr := toTimeString dropStart in
  let newEndStr := toTimeString dropEnd in
  let error := update_time_slot env (timeSlotId event) newStartStr newEndStr in
  let write := StoreUpdate (timeSlotId event) newStartStr newEndStr error in
  match error with
  | Some err =>
      {| effects := before ++ [write;
                               ConsoleError "Error updating time in Supabase:" err;
                               Alert save_failure_notice];
         setEvents := None |}
  | None =>
      {| effects := before ++ [write];
         setEvents := Some (apply_move event dropStart dropEnd) |}
  end.

Definition handleEventDrop (env : Env) (st : State)
  (event : Event) (dropStart dropEnd : Date) (isAllDay : bool) : Outcome :=
  let originalDay := getDay (start event) in
  let newDay := getDay dropStart in
  if num_strict_neq originalDay newDay then
    {| effects := [Alert day_notice]; setEvents := None |}
  else
    let movedEvent := moved event dropStart dropEnd isAllDay in
    let conflicts := detect_conflicts (events st) movedEvent in
    if (0 <? Z.of_nat (List.length conflicts)) then
      let message := join nl conflicts ++ override_prompt in
      let override := confirm env message in
      if negb override then
        {| effects := [Confirm message override]; setEvents := None |}
      else persist env event dropStart dropEnd [Confirm message override]
    else persist env event dropStart dropEnd [].

End Multi.

(** ** [src/ScheduleCalendar.jsx]: single-value filters, blocking notice *)

Module ScheduleCalendar.

Record State := {
  events : list Event;
  professorFilter : jsval;
  roomFilter : jsval;
  gradeFilter : jsval
}.

Definition strict_neq (a b : jsval) : bool := negb (strict_eq a b).

Definition professors (st : State) : list jsval :=
  distinct (map professor (events st)).

Definition rooms (st : State) : list jsval :=
  distinct (map room (events st)).

Definition grades (st : State) : list jsval :=
  distinct (map gradeLevel (events st)).

Definition keeps (st : State) (e : Event) : bool :=
  if strict_neq (professorFilter st) (JStr "all")
     && strict_neq (professor e) (professorFilter st) then false
  else if strict_neq (roomFilter st) (JStr "all")
          && strict_neq (room e) (roomFilter st) then false
  else if strict_neq (gradeFilter st) (JStr "all")
          && strict_neq (gradeLevel e) (gradeFilter st) then false
  else true.

Definition filteredEvents (st : State) : list Event :=
  filter (keeps st) (events st).

Definition save_failure_notice : string :=
  "There was a problem saving this change. The calendar was not updated.".

Definition persist (env : Env) (event : Event) (dropStart dropEnd : Date)
  : Outcome :=
  let newStartStr := toTimeString dropStart in
  let newEndStr := toTimeString dropEnd in
  let error := update_time_slot env (timeSlotId event) newStartStr newEndStr in
  let write := StoreUpdate (timeSlotId event) newStartStr newEndStr error in
  match error with
  | Some err =>
      {| effects := [write;
                     ConsoleError "Error updating time in Supabase:" err;
                     Alert save_failure_notice];
         setEvents := None |}
  | None =>
      {| effects := [write];
         setEvents := Some (apply_move event dropStart dropEnd) |}
  end.

Definition handleEventDrop (env : Env) (st : State)
  (event : Event) (dropStart dropEnd : Date) (isAllDay : bool) : Outcome :=
  let originalDay := getDay (start event) in
  let newDay := getDay dropStart in
  if num_strict_neq originalDay newDay then
    {| effects := [Alert day_notice]; setEvents := None |}
  else
    let movedEvent := moved event dropStart dropEnd isAllDay in
    let conflicts := detect_conflicts (events st) movedEvent in
    if (0 <? Z.of_nat (List.length conflicts)) then
      {| effects := [Alert (join nl conflicts)]; setEvents := None |}
    else persist env event dropStart dropEnd.

End ScheduleCalendar.

(** ** Vocabulary of the statements *)

Definition jsval_eq_dec (a b : jsval) : {a = b} + {a <> b}.
Proof.
  decide equality; [apply Z.eq_dec | apply string_dec].
Defined.

(** One entry when the two events carry the same value, none otherwise. *)
Definition entry_if_shared (a b : jsval) (entry : string) : list string :=
  if jsval_eq_dec a b then [entry] else [].

(** The day codes that [DAY_MAP] knows. *)
Definition recognized (code : ascii) : bool :=
  match DAY_MAP code with
  | Some _ => true
  | None => false
  end.

(** The hour, minute and second that [at_time] hands to [setHours] for a
    time string whose first two components, and third when there is one, are
    strings of digits; a missing third component is second 0, components
    after the third are ignored. *)
Definition clock_of (time : string) : option (Z * Z * Z) :=
  match map Number (split_colon time) with
  | [Some h; Some m] => Some (h, m, 0)
  | Some h :: Some m :: Some s :: _ => Some (h, m, s)
  | _ => None
  end.

(** Milliseconds since midnight of a time string. *)
Definition time_of_day (time : string) : option Z :=
  match clock_of time with
  | Some (h, m, s) => Some (MakeTime h m s 0)
  | None => None
  end.

(** The row's start is earlier than its end, and the end is no later than
    24:00:00. *)
Definition well_timed (row : Row) : Prop :=
  exists a b,
    time_of_day (start_time row) = Some a
    /\ time_of_day (end_time row) = Some b
    /\ a < b <= msPerDay.

(** [d1] is [d0] with the clock of the instant [s] (hours, minutes, seconds)
    on [d0]'s calendar day. *)
Definition same_date_at (s : Z) (d0 d1 : Date) : Prop :=
  forall t,
    d0 = Some t ->
    exists t',
      d1 = Some t'
      /\ Day t' = Day t
      /\ HourFromTime t' = HourFromTime s
      /\ MinFromTime t' = MinFromTime s
      /\ SecFromTime t' = SecFromTime s.

(** What a committed move of [event] to the instants [s], [e] makes of an
    occurrence [e0]: [e1] is [e0] itself when the time slots differ;
    otherwise only start and end change, each to the new clock on its own
    day. *)
Definition moved_with (event : Event) (s e : Z) (e0 e1 : Event) : Prop :=
  (timeSlotId e0 <> timeSlotId event -> e1 = e0)
  /\ (timeSlotId e0 = timeSlotId event ->
      e1 = with_times e0 (start e1) (end_ e1)
      /\ same_date_at s (start e0) (start e1)
      /\ same_date_at e (end_ e0) (end_ e1)).

(** Day number of the Monday of the week that contains the instant [now]. *)
Definition week_monday (now : Z) : Z := Day now - (WeekDay now + 6) mod 7.

(** The date [d] lies on weekday [wd] of the week of [now] and shows the
    clock written in [time], provided [time] holds a clock. *)
Definition carries (now wd : Z) (time : string) (d : Date) : Prop :=
  forall h m s,
    clock_of time = Some (h, m, s) ->
    0 <= h < 24 -> 0 <= m < 60 -> 0 <= s < 60 ->
    exists t,
      d = Some t
      /\ Day t = week_monday now + (wd - 1)
      /\ WeekDay t = wd
      /\ HourFromTime t = h
      /\ MinFromTime t = m
      /\ SecFromTime t = s.

(** [e] is the occurrence of [row] for the day code [code] in the week of
    [now]. *)
Definition occurrence_on (now : Z) (row : Row) (code : ascii) (e : Event)
  : Prop :=
  exists wd,
    DAY_MAP code = Some wd
    /\ id e = (ToString (section_id row) ++ "-" ++ String code EmptyString)%string
    /\ sectionId e = section_id row
    /\ patternSlotId e = pattern_slot_id row
    /\ timeSlotId e = time_slot_id row
    /\ title e = course_code row
    /\ professor e = instructor_name row
    /\ room e = room_name row
    /\ gradeLevel e = JStr (ToString (grade_level row))
    /\ carries now wd (start_time row) (start e)
    /\ carries now wd (end_time row) (end_ e).

(** ** Sample data *)

Module Sample.

Definition section (sid slot : Z) (days : option string) (from to : string)
  (course prof room : string) (grade : Z) : Row :=
  {| section_id := JNum sid;
     pattern_slot_id := JNum slot;
     time_slot_id := JNum slot;
     day_code := days;
     start_time := from;
     end_time := to;
     course_code := JStr course;
     instructor_name := JStr prof;
     room_name := JStr room;
     grade_level := JNum grade |}.

(** Tuesday 3 November 2026, 10:15:00. *)
Definition now : Z := 20760 * msPerDay + MakeTime 10 15 0 0.

(** Midnight of Monday 2 November 2026. *)
Definition monday : Z := 20759 * msPerDay.

Definition cs101 : Row :=
  section 1 100 (Some "MW") "09:00:00" "10:00:00" "CS101" "Lee" "Room 101" 1.

Definition ma201 : Row :=
  section 2 200 (Some "M") "09:30" "10:30:00" "MA201" "Kim" "Room 101" 2.

(** A day code with a character outside [DAY_MAP]. *)
Definition weekend : Row :=
  section 3 300 (Some "MX") "09:00:00" "10:00:00" "PE100" "Ito" "Gym" 1.

(** A second meeting of section 1 on Monday, in another time slot. *)
Definition cs101_lab : Row :=
  section 1 101 (Some "M") "14:00:00" "15:00:00" "CS101" "Lee" "Lab 2" 1.

(** A section that meets on Monday and Tuesday right after midnight. *)
Definition night : Row :=
  section 4 400 (Some "MT") "00:00:00" "01:00:00" "AS300" "Roy" "Dome" 3.

Definition no_days : Row :=
  section 5 500 None "11:00" "12:00" "HI110" "Lee" "Room 7" 2.

Definition accepting : Env :=
  {| confirm := fun _ => true; update_time_slot := fun _ _ _ => None |}.

Definition declining : Env :=
  {| confirm := fun _ => false; update_time_slot := fun _ _ _ => None |}.

Definition failing : Env :=
  {| confirm := fun _ => true;
     update_time_slot := fun _ _ _ => Some "timeout" |}.

Definition week : list Event := rowsToEvents (Some now) [cs101; ma201].

Definition multi_state : Multi.State :=
  {| Multi.events := week; Multi.professorFilter := [];
     Multi.roomFilter := []; Multi.gradeFilter := [] |}.

Definition single_state : ScheduleCalendar.State :=
  {| ScheduleCalendar.events := week;
     ScheduleCalendar.professorFilter := JStr "all";
     ScheduleCalendar.roomFilter := JStr "all";
     ScheduleCalendar.gradeFilter := JStr "all" |}.

(** The Monday occurrence of CS101. *)
Definition cs101_monday : Event :=
  {| id := "1-M"; sectionId := JNum 1; patternSlotId := JNum 100;
     timeSlotId := JNum 100; title := JStr "CS101"; professor := JStr "Lee";
     room := JStr "Room 101"; gradeLevel := JStr "1";
     start := Some (monday + MakeTime 9 0 0 0);
     end_ := Some (monday + MakeTime 10 0 0 0);
     allDay := None |}.

End Sample.

(** ** Vocabulary of the further properties *)

(** The row as the view shows it once its time slot holds the times
    [from], [to]. *)
Definition restamped (row : Row) (from to : string) : Row :=
  {| section_id := section_id row;
     pattern_slot_id := pattern_slot_id row;
     time_slot_id := time_slot_id row;
     day_code := day_code row;
     start_time := from;
     end_time := to;
     course_code := course_code row;
     instructor_name := instructor_name row;
     room_name := room_name row;
     grade_level := grade_level row |}.

(** The multi-select selection that stands for a value of a single-value
    filter. *)
Definition selection_of (choice : jsval) : list jsval :=
  if strict_eq choice (JStr "all") then [] else [choice].

(** The collaborators of [env] with a user who never accepts. *)
Definition never_accepting (env : Env) : Env :=
  {| confirm := fun _ => false; update_time_slot := update_time_slot env |}.

(** The two characters that [toTimeString] prints for [n] are digits that
    read back as [n]. *)
Definition two_digits (n : nat) : bool :=
  match padStart2 (string_of_Z (Z.of_nat n)) with
  | String a (String b EmptyString) =>
      negb (Ascii.eqb a ":") && negb (Ascii.eqb b ":")
      && match Number (String a (String b EmptyString)) with
         | Some v => v =? Z.of_nat n
         | None => false
         end
  | _ => false
  end.


(** * Properties *)

(** ** Values *)

Lemma strict_eq_spec (a b : jsval) : strict_eq a b = true <-> a = b.
Proof.
  destruct a, b; simpl; split; intros H; try congruence; try discriminate.
  - apply Z.eqb_eq in H; congruence.
  - apply Z.eqb_eq; congruence.
  - apply String.eqb_eq in H; congruence.
  - apply String.eqb_eq; congruence.
Qed.

Lemma strict_eq_refl (a : jsval) : strict_eq a a = true.
Proof. now apply strict_eq_spec. Qed.

Lemma includes_spec (a : list jsval) (v : jsval) :
  includes a v = true <-> In v a.
Proof.
  unfold includes; rewrite existsb_exists; split.
  - intros [x [Hin Heq]]; apply strict_eq_spec in Heq; now subst.
  - intros Hin; exists v; split; [assumption | apply strict_eq_refl].
Qed.

(** ** Time arithmetic: the overlap predicate *)

Lemma timesOverlap_valid (a b c d : Z) :
  timesOverlap (Some a) (Some b) (Some c) (Some d) = (a <? d) && (b >? c).
Proof.
  unfold timesOverlap, date_gt, date_lt; now rewrite (Z.gtb_ltb b c).
Qed.

Lemma timesOverlap_true_iff (a b c d : Z) :
  timesOverlap (Some a) (Some b) (Some c) (Some d) = true <-> a < d /\ c < b.
Proof.
  unfold timesOverlap, date_gt, date_lt.
  now rewrite andb_true_iff, !Z.ltb_lt.
Qed.

Lemma timesOverlap_false_iff (a b c d : Z) :
  timesOverlap (Some a) (Some b) (Some c) (Some d) = false <-> d <= a \/ b <= c.
Proof.
  unfold timesOverlap, date_gt, date_lt.
  rewrite andb_false_iff, !Z.ltb_ge; tauto.
Qed.

Lemma timesOverlap_sym (a b c d : Date) :
  timesOverlap a b c d = timesOverlap c d a b.
Proof. unfold timesOverlap, date_gt; apply andb_comm. Qed.

(** C7, the part of the claim that fails: a class of zero duration placed
    inside another class does overlap it. *)
Lemma timesOverlap_zero_duration_overlaps :
  ~ (forall a b c d : Z,
        a = b \/ c = d ->
        timesOverlap (Some a) (Some b) (Some c) (Some d) = false).
Proof.
  intros H.
  specialize (H 5 5 0 10 (or_introl eq_refl)).
  vm_compute in H; discriminate.
Qed.

(** C7 (amended): on instants, [timesOverlap a b c d] is the test
    [a < d && b > c]; it is symmetric under swapping the two intervals; it is
    false whenever [b <= c] or [d <= a]; an interval of zero duration
    overlaps another interval exactly when its instant lies strictly inside
    it, so two intervals of zero duration never overlap. *)
Theorem timesOverlap_half_open (a b c d : Z) :
  timesOverlap (Some a) (Some b) (Some c) (Some d) = (a <? d) && (b >? c)
  /\ timesOverlap (Some a) (Some b) (Some c) (Some d)
     = timesOverlap (Some c) (Some d) (Some a) (Some b)
  /\ (b <= c \/ d <= a ->
      timesOverlap (Some a) (Some b) (Some c) (Some d) = false)
  /\ (timesOverlap (Some a) (Some a) (Some c) (Some d) = true <-> c < a < d)
  /\ (timesOverlap (Some a) (Some b) (Some c) (Some c) = true <-> a < c < b)
  /\ timesOverlap (Some a) (Some a) (Some c) (Some c) = false.
Proof.
  repeat split.
  - apply timesOverlap_valid.
  - apply timesOverlap_sym.
  - intros H; apply timesOverlap_false_iff; lia.
  - apply timesOverlap_true_iff in H; lia.
  - apply timesOverlap_true_iff in H; lia.
  - intros H; apply timesOverlap_true_iff; lia.
  - apply timesOverlap_true_iff in H; lia.
  - apply timesOverlap_true_iff in H; lia.
  - intros H; apply timesOverlap_true_iff; lia.
  - apply timesOverlap_false_iff; lia.
Qed.

Lemma timesOverlap_half_open_witness :
  timesOverlap (Some 1) (Some 2) (Some 2) (Some 3) = false.
Proof.
  apply (proj1 (proj2 (proj2 (timesOverlap_half_open 1 2 2 3)))).
  left; lia.
Defined.

(** ** The drop handler *)

Lemma num_strict_neq_of_neq (a b : num) : a <> b -> num_strict_neq a b = true.
Proof.
  destruct a as [x|], b as [y|]; simpl; trivial.
  intros H; apply negb_true_iff, Z.eqb_neq; congruence.
Qed.

Lemma length_pos_nonempty {A} (l : list A) :
  (0 <? Z.of_nat (List.length l)) = true <-> l <> [].
Proof.
  destruct l; simpl; split; intros H; try congruence; try discriminate.
  apply Z.ltb_lt; lia.
Qed.

Lemma length_pos_empty {A} (l : list A) :
  (0 <? Z.of_nat (List.length l)) = false <-> l = [].
Proof.
  destruct l; simpl; split; intros H; try congruence; try reflexivity.
  apply Z.ltb_ge in H; lia.
Qed.

(** C4: a drop whose new start is on another weekday than the event's
    original start is answered, in both versions, by the day notice alone:
    no confirmation, no store write, no call of [setEvents], whatever the
    occurrence set, the new end and the collaborators are; the occurrence
    set stays as it was. *)
Theorem day_change_rejected
  (env : Env) (mst : Multi.State) (sst : ScheduleCalendar.State)
  (event : Event) (dropStart dropEnd : Date) (isAllDay : bool)
  (current : list Event) :
  getDay (start event) <> getDay dropStart ->
  Multi.handleEventDrop env mst event dropStart dropEnd isAllDay
    = {| effects := [Alert day_notice]; setEvents := None |}
  /\ events_after
       (Multi.handleEventDrop env mst event dropStart dropEnd isAllDay)
       current = current
  /\ ScheduleCalendar.handleEventDrop env sst event dropStart dropEnd isAllDay
    = {| effects := [Alert day_notice]; setEvents := None |}
  /\ events_after
       (ScheduleCalendar.handleEventDrop env sst event dropStart dropEnd
          isAllDay)
       current = current.
Proof.
  intros Hday; apply num_strict_neq_of_neq in Hday.
  unfold Multi.handleEventDrop, ScheduleCalendar.handleEventDrop.
  rewrite Hday; repeat split.
Qed.

(** C6: when the store write of a run fails, that write is the only one of
    the run, it is followed by the console error and the failure notice and
    by nothing else, [setEvents] is not called, and the occurrence set is the
    one from before the move.  Both versions. *)
Theorem store_failure_leaves_events
  (env : Env) (mst : Multi.State) (sst : ScheduleCalendar.State)
  (event : Event) (dropStart dropEnd : Date) (isAllDay : bool)
  (current : list Event) :
  (forall ts a b err,
      let o := Multi.handleEventDrop env mst event dropStart dropEnd isAllDay in
      In (StoreUpdate ts a b (Some err)) (effects o) ->
      setEvents o = None
      /\ events_after o current = current
      /\ exists before,
          effects o
          = (before ++ [StoreUpdate ts a b (Some err);
                        ConsoleError "Error updating time in Supabase:" err;
                        Alert Multi.save_failure_notice])%list
          /\ filter is_store_update before = [])
  /\ (forall ts a b err,
      let o := ScheduleCalendar.handleEventDrop env sst event dropStart dropEnd
                 isAllDay in
      In (StoreUpdate ts a b (Some err)) (effects o) ->
      setEvents o = None
      /\ events_after o current = current
      /\ effects o
         = [StoreUpdate ts a b (Some err);
            ConsoleError "Error updating time in Supabase:" err;
            Alert ScheduleCalendar.save_failure_notice]).
Proof.
  split; intros ts a b err o Hin; subst o; revert Hin.
  - unfold Multi.handleEventDrop.
    destruct (num_strict_neq _ _).
    { simpl; intros [H | []]; discriminate. }
    destruct (0 <? _).
    + destruct (confirm env _) eqn:Hc; simpl.
      * unfold Multi.persist.
        destruct (update_time_slot env _ _ _) eqn:Hu; simpl.
        -- intros [H | [H | [H | [H | []]]]]; try discriminate.
           injection H as <- <- <- <-.
           unfold events_after; simpl; repeat split.
           eexists [_]; split; reflexivity.
        -- intros [H | [H | []]]; discriminate.
      * intros [H | []]; discriminate.
    + unfold Multi.persist.
      destruct (update_time_slot env _ _ _) eqn:Hu; simpl.
      * intros [H | [H | [H | []]]]; try discriminate.
        injection H as <- <- <- <-.
        unfold events_after; simpl; repeat split.
        exists []; split; reflexivity.
      * intros [H | []]; discriminate.
  - unfold ScheduleCalendar.handleEventDrop.
    destruct (num_strict_neq _ _).
    { simpl; intros [H | []]; discriminate. }
    destruct (0 <? _).
    { simpl; intros [H | []]; discriminate. }
    unfold ScheduleCalendar.persist.
    destruct (update_time_slot env _ _ _) eqn:Hu; simpl.
    + intros [H | [H | [H | []]]]; try discriminate.
      injection H as <- <- <- <-.
      unfold events_after; simpl; repeat split.
    + intros [H | []]; discriminate.
Qed.

Lemma persist_effects (env : Env) (event : Event) (dropStart dropEnd : Date)
  (before : list Effect) :
  exists rest,
    effects (Multi.persist env event dropStart dropEnd before)
    = (before
       ++ StoreUpdate (timeSlotId event) (toTimeString dropStart)
            (toTimeString dropEnd)
            (update_time_slot env (timeSlotId event) (toTimeString dropStart)
               (toTimeString dropEnd))
          :: rest)%list
    /\ filter is_confirm rest = []
    /\ filter is_store_update rest = [].
Proof.
  unfold Multi.persist.
  destruct (update_time_slot env _ _ _); simpl; eexists; repeat split.
Qed.

(** C2: for a day-preserving drop, in the version with the dialog: when the
    conflict list is not empty the first effect is the confirmation dialog
    showing the joined conflicts; if the user declines, the dialog is the
    only effect (no store write) and [setEvents] is not called; if the user
    accepts, the store write follows the dialog; when the conflict list is
    empty there is no dialog and the store write is the first effect.  In
    [src/ScheduleCalendar.jsx] a non-empty conflict list is shown in an alert
    and the move is dropped without any write, and an empty one lets the
    store write go ahead as the first effect. *)
Theorem conflicts_gate_commit
  (env : Env) (mst : Multi.State) (sst : ScheduleCalendar.State)
  (event : Event) (dropStart dropEnd : Date) (isAllDay : bool) :
  num_strict_neq (getDay (start event)) (getDay dropStart) = false ->
  let movedEvent := moved event dropStart dropEnd isAllDay in
  let write :=
    StoreUpdate (timeSlotId event) (toTimeString dropStart)
      (toTimeString dropEnd)
      (update_time_slot env (timeSlotId event) (toTimeString dropStart)
         (toTimeString dropEnd)) in
  (let conflicts := detect_conflicts (Multi.events mst) movedEvent in
   let message := (join nl conflicts ++ Multi.override_prompt)%string in
   let o := Multi.handleEventDrop env mst event dropStart dropEnd isAllDay in
   (conflicts <> [] ->
    hd_error (effects o) = Some (Confirm message (confirm env message))
    /\ (confirm env message = false ->
        o = {| effects := [Confirm message false]; setEvents := None |})
    /\ (confirm env message = true ->
        exists rest,
          effects o = Confirm message true :: write :: rest
          /\ filter is_confirm rest = []
          /\ filter is_store_update rest = []))
   /\ (conflicts = [] ->
       exists rest,
         effects o = write :: rest
         /\ filter is_confirm rest = []
         /\ filter is_store_update rest = []))
  /\ (let conflicts :=
        detect_conflicts (ScheduleCalendar.events sst) movedEvent in
      let o := ScheduleCalendar.handleEventDrop env sst event dropStart dropEnd
                 isAllDay in
      (conflicts <> [] ->
       o = {| effects := [Alert (join nl conflicts)]; setEvents := None |})
      /\ (conflicts = [] ->
          exists rest,
            effects o = write :: rest
            /\ filter is_confirm rest = []
            /\ filter is_store_update rest = [])).
Proof.
  intros Hday movedEvent write; split.
  - intros conflicts message o; split.
    + intros Hne.
      assert (Ho : o = if negb (confirm env message)
                       then {| effects := [Confirm message (confirm env message)];
                               setEvents := None |}
                       else Multi.persist env event dropStart dropEnd
                              [Confirm message (confirm env message)]).
      { subst o; unfold Multi.handleEventDrop; rewrite Hday.
        fold movedEvent; fold conflicts.
        apply length_pos_nonempty in Hne; rewrite Hne.
        fold message; reflexivity. }
      repeat split.
      * rewrite Ho; destruct (confirm env message); simpl; [|reflexivity].
        destruct (persist_effects env event dropStart dropEnd
                    [Confirm message true]) as [rest [-> _]].
        reflexivity.
      * intros Hc; rewrite Ho, Hc; reflexivity.
      * intros Hc; rewrite Ho, Hc; simpl.
        destruct (persist_effects env event dropStart dropEnd
                    [Confirm message true]) as [rest [-> [H1 H2]]].
        exists rest; repeat split; assumption.
    + intros He.
      subst o; unfold Multi.handleEventDrop; rewrite Hday.
      fold movedEvent; fold conflicts.
      apply length_pos_empty in He; rewrite He.
      destruct (persist_effects env event dropStart dropEnd [])
        as [rest [-> [H1 H2]]].
      exists rest; repeat split; assumption.
  - intros conflicts o; split.
    + intros Hne; subst o; unfold ScheduleCalendar.handleEventDrop.
      rewrite Hday; fold movedEvent; fold conflicts.
      apply length_pos_nonempty in Hne; rewrite Hne; reflexivity.
    + intros He; subst o; unfold ScheduleCalendar.handleEventDrop.
      rewrite Hday; fold movedEvent; fold conflicts.
      apply length_pos_empty in He; rewrite He.
      unfold ScheduleCalendar.persist.
      destruct (update_time_slot env _ _ _); simpl; eexists; repeat split.
Qed.

Lemma detect_conflicts_app (l1 l2 : list Event) (movedEvent : Event) :
  detect_conflicts (l1 ++ l2) movedEvent
  = (detect_conflicts l1 movedEvent ++ detect_conflicts l2 movedEvent)%list.
Proof. unfold detect_conflicts; apply flat_map_app. Qed.

Lemma entry_if_shared_spec (a b : jsval) (entry : string) :
  (if strict_eq a b then [entry] else []) = entry_if_shared a b entry.
Proof.
  unfold entry_if_shared.
  destruct (jsval_eq_dec a b) as [Heq | Hne].
  - apply strict_eq_spec in Heq; now rewrite Heq.
  - destruct (strict_eq a b) eqn:H; [|reflexivity].
    apply strict_eq_spec in H; contradiction.
Qed.

Lemma entry_if_shared_length (a b : jsval) (entry : string) :
  (List.length (entry_if_shared a b entry) <= 1)%nat.
Proof. unfold entry_if_shared; destruct (jsval_eq_dec a b); simpl; lia. Qed.

(** C3: the conflict list is the concatenation, in the order of the full
    occurrence set, of what each occurrence contributes; an occurrence with
    the candidate's id contributes nothing; an occurrence whose range does
    not overlap the candidate's contributes nothing; any other occurrence
    contributes one professor entry if the professors are equal, then one
    room entry if the rooms are equal, then one grade-level entry if the
    grade levels are equal, hence at most three entries and none when no
    attribute is shared.  The handler of either version reads the full set:
    two states with the same occurrences and different filters give the same
    outcome. *)
Theorem conflict_list_shape (events : list Event) (movedEvent : Event) :
  (forall before other after,
      events = (before ++ other :: after)%list ->
      detect_conflicts events movedEvent
      = (detect_conflicts before movedEvent
         ++ conflicts_with movedEvent other
         ++ detect_conflicts after movedEvent)%list)
  /\ (forall other,
         id other = id movedEvent -> conflicts_with movedEvent other = [])
  /\ (forall other,
         timesOverlap (start movedEvent) (end_ movedEvent)
                      (start other) (end_ other) = false ->
         conflicts_with movedEvent other = [])
  /\ (forall other,
         id other <> id movedEvent ->
         timesOverlap (start movedEvent) (end_ movedEvent)
                      (start other) (end_ other) = true ->
         conflicts_with movedEvent other
         = (entry_if_shared (professor movedEvent) (professor other)
              (professor_conflict movedEvent other)
            ++ entry_if_shared (room movedEvent) (room other)
                 (room_conflict movedEvent other)
            ++ entry_if_shared (gradeLevel movedEvent) (gradeLevel other)
                 (grade_conflict movedEvent other))%list)
  /\ (forall other, (List.length (conflicts_with movedEvent other) <= 3)%nat)
  /\ (forall other,
         professor movedEvent <> professor other ->
         room movedEvent <> room other ->
         gradeLevel movedEvent <> gradeLevel other ->
         conflicts_with movedEvent other = [])
  /\ (forall env st st' event dropStart dropEnd isAllDay,
         Multi.events st = events ->
         Multi.events st' = events ->
         Multi.handleEventDrop env st event dropStart dropEnd isAllDay
         = Multi.handleEventDrop env st' event dropStart dropEnd isAllDay)
  /\ (forall env st st' event dropStart dropEnd isAllDay,
         ScheduleCalendar.events st = events ->
         ScheduleCalendar.events st' = events ->
         ScheduleCalendar.handleEventDrop env st event dropStart dropEnd
           isAllDay
         = ScheduleCalendar.handleEventDrop env st' event dropStart dropEnd
             isAllDay).
Proof.
  assert (Hshape : forall other,
             id other <> id movedEvent ->
             timesOverlap (start movedEvent) (end_ movedEvent)
                          (start other) (end_ other) = true ->
             conflicts_with movedEvent other
             = (entry_if_shared (professor movedEvent) (professor other)
                  (professor_conflict movedEvent other)
                ++ entry_if_shared (room movedEvent) (room other)
                     (room_conflict movedEvent other)
                ++ entry_if_shared (gradeLevel movedEvent) (gradeLevel other)
                     (grade_conflict movedEvent other))%list).
  { intros other Hid Hov; unfold conflicts_with.
    apply String.eqb_neq in Hid; rewrite Hid, Hov; simpl.
    now rewrite !entry_if_shared_spec. }
  assert (Hskip : forall other,
             id other = id movedEvent -> conflicts_with movedEvent other = []).
  { intros other Hid; unfold conflicts_with.
    apply String.eqb_eq in Hid; now rewrite Hid. }
  assert (Hfar : forall other,
             timesOverlap (start movedEvent) (end_ movedEvent)
                          (start other) (end_ other) = false ->
             conflicts_with movedEvent other = []).
  { intros other Hov; unfold conflicts_with; rewrite Hov.
    now destruct (String.eqb _ _). }
  repeat split.
  - intros before other after ->.
    rewrite detect_conflicts_app; reflexivity.
  - exact Hskip.
  - exact Hfar.
  - exact Hshape.
  - intros other.
    destruct (String.eqb (id other) (id movedEvent)) eqn:Hid.
    { apply String.eqb_eq in Hid; rewrite (Hskip _ Hid); simpl; lia. }
    destruct (timesOverlap (start movedEvent) (end_ movedEvent)
                (start other) (end_ other)) eqn:Hov.
    2:{ rewrite (Hfar _ Hov); simpl; lia. }
    apply String.eqb_neq in Hid; rewrite (Hshape _ Hid Hov).
    rewrite !length_app.
    pose proof (entry_if_shared_length (professor movedEvent) (professor other)
                  (professor_conflict movedEvent other)).
    pose proof (entry_if_shared_length (room movedEvent) (room other)
                  (room_conflict movedEvent other)).
    pose proof (entry_if_shared_length (gradeLevel movedEvent)
                  (gradeLevel other) (grade_conflict movedEvent other)).
    lia.
  - intros other Hp Hr Hg.
    destruct (String.eqb (id other) (id movedEvent)) eqn:Hid.
    { apply String.eqb_eq in Hid; exact (Hskip _ Hid). }
    destruct (timesOverlap (start movedEvent) (end_ movedEvent)
                (start other) (end_ other)) eqn:Hov.
    2:{ exact (Hfar _ Hov). }
    apply String.eqb_neq in Hid; rewrite (Hshape _ Hid Hov).
    unfold entry_if_shared.
    destruct (jsval_eq_dec _ _); [contradiction|].
    destruct (jsval_eq_dec _ _); [contradiction|].
    destruct (jsval_eq_dec _ _); [contradiction|].
    reflexivity.
  - intros env st st' event dropStart dropEnd isAllDay H1 H2.
    unfold Multi.handleEventDrop; rewrite H1, H2; reflexivity.
  - intros env st st' event dropStart dropEnd isAllDay H1 H2.
    unfold ScheduleCalendar.handleEventDrop; rewrite H1, H2; reflexivity.
Qed.

(** ** Filter projection *)

Lemma filter_Permutation {A} (f : A -> bool) (l l' : list A) :
  Permutation l l' -> Permutation (filter f l) (filter f l').
Proof.
  induction 1 as [| x l l' _ IH | x y l | l l' l'' _ IH1 _ IH2]; simpl.
  - constructor.
  - destruct (f x); [constructor|]; assumption.
  - destruct (f x), (f y); try apply Permutation_refl.
    apply perm_swap.
  - eapply Permutation_trans; eassumption.
Qed.

Lemma filter_true {A} (l : list A) : filter (fun _ => true) l = l.
Proof. induction l as [| x l IH]; simpl; congruence. Qed.

Lemma same_members_nil {A} (a a' : list A) :
  (forall v, In v a <-> In v a') -> a = [] <-> a' = [].
Proof.
  intros H; split; intros ->.
  - destruct a' as [| x a']; [reflexivity|].
    exfalso; apply (proj2 (H x)); now left.
  - destruct a as [| x a]; [reflexivity|].
    exfalso; apply (proj1 (H x)); now left.
Qed.

Lemma facet_test (sel : list jsval) (v : jsval) :
  (0 <? Z.of_nat (List.length sel)) && negb (includes sel v) = false
  <-> sel = [] \/ In v sel.
Proof.
  rewrite andb_false_iff, negb_false_iff, length_pos_empty, includes_spec.
  tauto.
Qed.

Lemma keeps_spec (st : Multi.State) (e : Event) :
  Multi.keeps st e = true
  <-> (Multi.professorFilter st = [] \/ In (professor e) (Multi.professorFilter st))
      /\ (Multi.roomFilter st = [] \/ In (room e) (Multi.roomFilter st))
      /\ (Multi.gradeFilter st = [] \/ In (gradeLevel e) (Multi.gradeFilter st)).
Proof.
  unfold Multi.keeps.
  rewrite <- !facet_test.
  destruct (_ && _), (_ && _), (_ && _); intuition congruence.
Qed.

Lemma toggleFilterValue_In (v x : jsval) (sel : list jsval) :
  v <> JStr "__ALL__" ->
  In x (Multi.toggleFilterValue v sel)
  <-> (In x sel /\ x <> v) \/ (x = v /\ ~ In v sel).
Proof.
  intros Hv; unfold Multi.toggleFilterValue.
  destruct (strict_eq v (JStr "__ALL__")) eqn:Hall.
  { apply strict_eq_spec in Hall; contradiction. }
  destruct sel as [| a sel'] eqn:Hsel.
  - simpl; intuition congruence.
  - rewrite <- Hsel; clear Hsel.
    destruct (includes sel v) eqn:Hinc.
    + apply includes_spec in Hinc.
      rewrite filter_In, negb_true_iff.
      split.
      * intros [Hin Hne]; left; split; [assumption|].
        intros ->; rewrite strict_eq_refl in Hne; discriminate.
      * intros [[Hin Hne] | [_ Hn]]; [|contradiction].
        split; [assumption|].
        destruct (strict_eq x v) eqn:H; [|reflexivity].
        apply strict_eq_spec in H; contradiction.
    + assert (Hn : ~ In v sel).
      { intros H; apply includes_spec in H; congruence. }
      rewrite in_app_iff; simpl.
      destruct (jsval_eq_dec x v) as [-> | Hne]; intuition congruence.
Qed.

(** C9: an event is kept exactly when, for each of the three facets, the
    selection is empty or contains the event's value, the three tests joined
    by "and"; the filtered list is the sublist of the kept events, so with
    three empty selections it is the whole set; two selections with the same
    members give the same filtered list, in particular two values (other
    than the "All" box) toggled in either order; and a reordering of the occurrence set reorders the
    filtered list without changing what is in it. *)
Theorem filter_by_facets (evs : list Event) (pf rf gf : list jsval) :
  let st := {| Multi.events := evs; Multi.professorFilter := pf;
               Multi.roomFilter := rf; Multi.gradeFilter := gf |} in
  (forall e,
      In e (Multi.filteredEvents st)
      <-> In e evs
          /\ (pf = [] \/ In (professor e) pf)
          /\ (rf = [] \/ In (room e) rf)
          /\ (gf = [] \/ In (gradeLevel e) gf))
  /\ Multi.filteredEvents
       {| Multi.events := evs; Multi.professorFilter := [];
          Multi.roomFilter := []; Multi.gradeFilter := [] |} = evs
  /\ (forall pf' rf' gf',
         (forall v, In v pf <-> In v pf') ->
         (forall v, In v rf <-> In v rf') ->
         (forall v, In v gf <-> In v gf') ->
         Multi.filteredEvents st
         = Multi.filteredEvents
             {| Multi.events := evs; Multi.professorFilter := pf';
                Multi.roomFilter := rf'; Multi.gradeFilter := gf' |})
  /\ (forall v w,
         v <> JStr "__ALL__" ->
         w <> JStr "__ALL__" ->
         Multi.filteredEvents
           {| Multi.events := evs;
              Multi.professorFilter :=
                Multi.toggleFilterValue w (Multi.toggleFilterValue v pf);
              Multi.roomFilter := rf; Multi.gradeFilter := gf |}
         = Multi.filteredEvents
             {| Multi.events := evs;
                Multi.professorFilter :=
                  Multi.toggleFilterValue v (Multi.toggleFilterValue w pf);
                Multi.roomFilter := rf; Multi.gradeFilter := gf |})
  /\ (forall evs',
         Permutation evs evs' ->
         Permutation
           (Multi.filteredEvents st)
           (Multi.filteredEvents
              {| Multi.events := evs'; Multi.professorFilter := pf;
                 Multi.roomFilter := rf; Multi.gradeFilter := gf |})).
Proof.
  intros st.
  assert (Hmem : forall pf' rf' gf',
             (forall v, In v pf <-> In v pf') ->
             (forall v, In v rf <-> In v rf') ->
             (forall v, In v gf <-> In v gf') ->
             Multi.filteredEvents st
             = Multi.filteredEvents
                 {| Multi.events := evs; Multi.professorFilter := pf';
                    Multi.roomFilter := rf'; Multi.gradeFilter := gf' |}).
  { intros pf' rf' gf' Hp Hr Hg.
    unfold Multi.filteredEvents; simpl.
    apply filter_ext; intros e.
    pose proof (@same_members_nil jsval) as Hsame.
    apply eq_true_iff_eq.
    rewrite !keeps_spec; simpl.
    rewrite (Hsame _ _ Hp), (Hsame _ _ Hr), (Hsame _ _ Hg).
    rewrite (Hp (professor e)), (Hr (room e)), (Hg (gradeLevel e)).
    reflexivity. }
  split; [|split; [|split; [|split]]].
  - intros e; unfold Multi.filteredEvents.
    rewrite filter_In, keeps_spec; simpl; reflexivity.
  - unfold Multi.filteredEvents; simpl.
    rewrite (filter_ext _ (fun _ => true)); [apply filter_true|].
    intros e; reflexivity.
  - exact Hmem.
  - intros v w Hv Hw.
    unfold Multi.filteredEvents; simpl.
    apply filter_ext; intros e.
    apply eq_true_iff_eq.
    rewrite !keeps_spec; simpl.
    assert (Hswap : forall x,
               In x (Multi.toggleFilterValue w (Multi.toggleFilterValue v pf))
               <-> In x (Multi.toggleFilterValue v
                           (Multi.toggleFilterValue w pf))).
    { intros x; rewrite !toggleFilterValue_In by assumption.
      destruct (jsval_eq_dec x v), (jsval_eq_dec x w),
        (jsval_eq_dec v w); subst; intuition congruence. }
    assert (Hnil : Multi.toggleFilterValue w (Multi.toggleFilterValue v pf)
                   = []
                   <-> Multi.toggleFilterValue v
                         (Multi.toggleFilterValue w pf) = []).
    { apply same_members_nil; exact Hswap. }
    rewrite Hnil, (Hswap (professor e)); reflexivity.
  - intros evs' Hperm.
    unfold Multi.filteredEvents; simpl.
    apply filter_Permutation.
    exact Hperm.
Qed.

(** ** Dates *)

Ltac unfold_time :=
  unfold Day, TimeWithinDay, WeekDay, HourFromTime, MinFromTime, SecFromTime,
    MakeDate, MakeTime, msPerDay, msPerHour, msPerMinute, msPerSecond in *.

Ltac time_arith := unfold_time; Z.div_mod_to_equations; lia.

Lemma Day_MakeDate (d t : Z) :
  0 <= t < msPerDay -> Day (MakeDate d t) = d.
Proof. intros H; time_arith. Qed.

Lemma MakeTime_range (h m s : Z) :
  0 <= h < 24 -> 0 <= m < 60 -> 0 <= s < 60 ->
  0 <= MakeTime h m s 0 < msPerDay.
Proof. intros Hh Hm Hs; time_arith. Qed.

Lemma clock_range (t : Z) :
  0 <= HourFromTime t < 24 /\ 0 <= MinFromTime t < 60
  /\ 0 <= SecFromTime t < 60.
Proof. repeat split; time_arith. Qed.

Lemma clock_MakeDate (d h m s : Z) :
  0 <= h < 24 -> 0 <= m < 60 -> 0 <= s < 60 ->
  let t := MakeDate d (MakeTime h m s 0) in
  Day t = d /\ HourFromTime t = h /\ MinFromTime t = m /\ SecFromTime t = s.
Proof. intros Hh Hm Hs t; subst t; repeat split; time_arith. Qed.

Lemma WeekDay_range (t : Z) : 0 <= WeekDay t < 7.
Proof. time_arith. Qed.

(** ** Commit *)

Lemma setHours_clock (s : Z) (d : Date) :
  same_date_at s d
    (setHours d (getHours (Some s)) (getMinutes (Some s))
       (or_zero (getSeconds (Some s))) (Some 0)).
Proof.
  intros t ->; simpl.
  destruct (clock_range s) as [Hh [Hm Hs]].
  eexists; split; [reflexivity|].
  apply clock_MakeDate; assumption.
Qed.

Lemma apply_move_spec (event : Event) (s e : Z) (prev : list Event) :
  Forall2 (moved_with event s e) prev
    (apply_move event (Some s) (Some e) prev).
Proof.
  unfold apply_move.
  induction prev as [| e0 prev IH]; simpl; constructor; [|exact IH].
  unfold moved_with.
  destruct (strict_eq (timeSlotId e0) (timeSlotId event)) eqn:Hts; simpl.
  - apply strict_eq_spec in Hts; split; [contradiction|].
    intros _; repeat split; apply setHours_clock.
  - split; [reflexivity|].
    intros Heq; apply strict_eq_spec in Heq; congruence.
Qed.

Lemma write_succeeded_multi (env : Env) (st : Multi.State) (event : Event)
  (dropStart dropEnd : Date) (isAllDay : bool) (ts : jsval) (a b : string) :
  In (StoreUpdate ts a b None)
    (effects (Multi.handleEventDrop env st event dropStart dropEnd isAllDay)) ->
  setEvents (Multi.handleEventDrop env st event dropStart dropEnd isAllDay)
  = Some (apply_move event dropStart dropEnd).
Proof.
  unfold Multi.handleEventDrop.
  destruct (num_strict_neq _ _).
  { simpl; intros [H | []]; discriminate. }
  destruct (0 <? _).
  - destruct (confirm env _); simpl.
    + unfold Multi.persist.
      destruct (update_time_slot env _ _ _); simpl; [|reflexivity].
      intros [H | [H | [H | [H | []]]]]; discriminate.
    + intros [H | []]; discriminate.
  - unfold Multi.persist.
    destruct (update_time_slot env _ _ _); simpl; [|reflexivity].
    intros [H | [H | [H | []]]]; discriminate.
Qed.

Lemma write_succeeded_single (env : Env) (st : ScheduleCalendar.State)
  (event : Event) (dropStart dropEnd : Date) (isAllDay : bool)
  (ts : jsval) (a b : string) :
  In (StoreUpdate ts a b None)
    (effects (ScheduleCalendar.handleEventDrop env st event dropStart dropEnd
                isAllDay)) ->
  setEvents (ScheduleCalendar.handleEventDrop env st event dropStart dropEnd
               isAllDay)
  = Some (apply_move event dropStart dropEnd).
Proof.
  unfold ScheduleCalendar.handleEventDrop.
  destruct (num_strict_neq _ _).
  { simpl; intros [H | []]; discriminate. }
  destruct (0 <? _).
  { simpl; intros [H | []]; discriminate. }
  unfold ScheduleCalendar.persist.
  destruct (update_time_slot env _ _ _); simpl; [|reflexivity].
  intros [H | [H | [H | []]]]; discriminate.
Qed.

(** C1: in both versions, when a run for a drop at the instants [s], [e]
    has written to the store without error (which only a day-preserving drop
    reaches), the occurrence set after the run matches the set before it
    position by position: an occurrence whose [timeSlotId] differs from the
    moved event's is the same occurrence; an occurrence with the moved
    event's [timeSlotId] keeps every field but start and end, and its start
    and end carry the hours, minutes and seconds of [s] and of [e] on the
    calendar day they were on. *)
Theorem commit_updates_time_slot
  (env : Env) (mst : Multi.State) (sst : ScheduleCalendar.State)
  (event : Event) (s e : Z) (isAllDay : bool) (prev : list Event) :
  (forall ts a b,
      let o := Multi.handleEventDrop env mst event (Some s) (Some e) isAllDay in
      In (StoreUpdate ts a b None) (effects o) ->
      num_strict_neq (getDay (start event)) (getDay (Some s)) = false
      /\ Forall2 (moved_with event s e) prev (events_after o prev))
  /\ (forall ts a b,
      let o := ScheduleCalendar.handleEventDrop env sst event (Some s) (Some e)
                 isAllDay in
      In (StoreUpdate ts a b None) (effects o) ->
      num_strict_neq (getDay (start event)) (getDay (Some s)) = false
      /\ Forall2 (moved_with event s e) prev (events_after o prev)).
Proof.
  split; intros ts a b o Hin; split.
  - subst o; revert Hin; unfold Multi.handleEventDrop.
    destruct (num_strict_neq _ _); [|reflexivity].
    simpl; intros [H | []]; discriminate.
  - unfold events_after; subst o.
    rewrite (write_succeeded_multi _ _ _ _ _ _ _ _ _ Hin).
    apply apply_move_spec.
  - subst o; revert Hin; unfold ScheduleCalendar.handleEventDrop.
    destruct (num_strict_neq _ _); [|reflexivity].
    simpl; intros [H | []]; discriminate.
  - unfold events_after; subst o.
    rewrite (write_succeeded_single _ _ _ _ _ _ _ _ _ Hin).
    apply apply_move_spec.
Qed.

(** ** Expansion *)

Lemma week_monday_spec (now : Z) :
  WeekDay (MakeDate (week_monday now) 0) = 1
  /\ week_monday now <= Day now < week_monday now + 7.
Proof.
  unfold week_monday, WeekDay.
  generalize (Day now); intros D.
  rewrite Day_MakeDate by (unfold msPerDay; lia).
  split; Z.div_mod_to_equations; lia.
Qed.

Lemma getWeekStart_valid (now : Z) :
  getWeekStart (Some now) = Some (MakeDate (week_monday now) 0).
Proof.
  unfold getWeekStart, week_monday; simpl.
  rewrite Z.rem_mod_nonneg by (pose proof (WeekDay_range now); lia).
  unfold MonthStartDay.
  generalize (DateFromTime now); intros dom.
  f_equal.
  replace (Day now - (dom - 1) + (dom - (WeekDay now + 6) mod 7) - 1)
    with (Day now - (WeekDay now + 6) mod 7) by lia.
  generalize (Day now - (WeekDay now + 6) mod 7); intros D.
  time_arith.
Qed.

Lemma baseDate_valid (D wd : Z) :
  setDate (Some (MakeDate D 0))
    (num_add (getDate (Some (MakeDate D 0))) (Some (wd - 1)))
  = Some (MakeDate (D + (wd - 1)) 0).
Proof.
  simpl; unfold MonthStartDay.
  generalize (DateFromTime (MakeDate D 0)); intros dom.
  f_equal.
  replace (Day (MakeDate D 0) - (dom - 1) + (dom + (wd - 1)) - 1)
    with (Day (MakeDate D 0) + (wd - 1)) by lia.
  time_arith.
Qed.

Lemma DAY_MAP_range (code : ascii) (wd : Z) :
  DAY_MAP code = Some wd -> 1 <= wd <= 5.
Proof.
  unfold DAY_MAP.
  repeat match goal with
         | |- context [Ascii.eqb ?a ?b] => destruct (Ascii.eqb a b)
         end; intros H; inversion H; lia.
Qed.

Lemma DAY_MAP_inj (c1 c2 : ascii) (wd : Z) :
  DAY_MAP c1 = Some wd -> DAY_MAP c2 = Some wd -> c1 = c2.
Proof.
  unfold DAY_MAP.
  repeat match goal with
         | |- context [Ascii.eqb ?a ?b] =>
             let E := fresh "E" in
             destruct (Ascii.eqb a b) eqn:E;
             [apply Ascii.eqb_eq in E; subst|]
         end; intros H1 H2; inversion H1; subst; inversion H2; reflexivity.
Qed.

Lemma at_time_clock (d : Date) (time : string) (h m s : Z) :
  clock_of time = Some (h, m, s) ->
  at_time d time = setHours d (Some h) (Some m) (Some s) (Some 0).
Proof.
  unfold at_time, clock_of.
  destruct (map Number (split_colon time)) as [| [h'|] [| [m'|] [| [s'|] rest]]];
    try discriminate; intros [= <- <- <-]; reflexivity.
Qed.

Lemma at_time_carries (now wd : Z) (time : string) :
  1 <= wd <= 5 ->
  carries now wd time
    (at_time (Some (MakeDate (week_monday now + (wd - 1)) 0)) time).
Proof.
  intros Hwd h m s Hclock Hh Hm Hs.
  rewrite (at_time_clock _ _ _ _ _ Hclock); simpl.
  eexists; split; [reflexivity|].
  assert (HD : Day (MakeDate (week_monday now + (wd - 1)) 0)
               = week_monday now + (wd - 1)).
  { apply Day_MakeDate; unfold msPerDay; lia. }
  rewrite HD.
  destruct (clock_MakeDate (week_monday now + (wd - 1)) h m s Hh Hm Hs)
    as [H1 [H2 [H3 H4]]].
  repeat split; try assumption.
  pose proof (week_monday_spec now) as [Hmon _].
  pose proof (MakeTime_range h m s Hh Hm Hs) as Hr.
  unfold WeekDay in *.
  rewrite Day_MakeDate in H1 |- * by assumption.
  rewrite Day_MakeDate in Hmon by (unfold msPerDay; lia).
  revert Hmon; generalize (week_monday now); intros D Hmon.
  Z.div_mod_to_equations; lia.
Qed.

Lemma events_of_code_recognized (now : Z) (row : Row) (code : ascii) :
  recognized code = true ->
  exists e,
    events_of_code (Some (MakeDate (week_monday now) 0)) row code = [e]
    /\ occurrence_on now row code e.
Proof.
  unfold recognized, events_of_code.
  destruct (DAY_MAP code) as [wd|] eqn:Hmap; [intros _ | discriminate].
  eexists; split; [reflexivity|].
  exists wd.
  cbn [id sectionId patternSlotId timeSlotId title professor room gradeLevel
       start end_].
  rewrite baseDate_valid.
  pose proof (DAY_MAP_range _ _ Hmap) as Hwd.
  repeat split; try apply at_time_carries; assumption.
Qed.

Lemma events_of_code_unrecognized (monday : Date) (row : Row) (code : ascii) :
  recognized code = false -> events_of_code monday row code = [].
Proof.
  unfold recognized, events_of_code.
  destruct (DAY_MAP code); [discriminate | reflexivity].
Qed.

Lemma expansion_of_codes (now : Z) (row : Row) (codes : list ascii) :
  Forall2 (occurrence_on now row) (filter recognized codes)
    (flat_map (events_of_code (Some (MakeDate (week_monday now) 0)) row) codes).
Proof.
  induction codes as [| c codes IH]; simpl; [constructor|].
  destruct (recognized c) eqn:Hc.
  - destruct (events_of_code_recognized now row c Hc) as [e [-> He]].
    simpl; constructor; assumption.
  - rewrite (events_of_code_unrecognized _ _ _ Hc); exact IH.
Qed.

Lemma rowsToEvents_single (now : Z) (row : Row) :
  rowsToEvents (Some now) [row]
  = flat_map (events_of_code (Some (MakeDate (week_monday now) 0)) row)
      (day_codes row).
Proof.
  unfold rowsToEvents; rewrite getWeekStart_valid; simpl.
  apply app_nil_r.
Qed.

Lemma length_split_chars (s : string) :
  List.length (split_chars s) = String.length s.
Proof.
  unfold split_chars; induction s as [| c s IH]; simpl; congruence.
Qed.

Lemma filter_all {A} (f : A -> bool) (l : list A) :
  forallb f l = true -> filter f l = l.
Proof.
  induction l as [| x l IH]; simpl; [reflexivity|].
  intros H; apply andb_true_iff in H as [Hx Hl].
  rewrite Hx, (IH Hl); reflexivity.
Qed.

(** C5, the part of the claim that fails: the number of occurrences of a
    row is not always the length of its day code. *)
Lemma expansion_skips_unknown_codes :
  ~ (forall (now : Z) (row : Row) (s : string),
        day_code row = Some s ->
        List.length (rowsToEvents (Some now) [row]) = String.length s).
Proof.
  intros H.
  specialize (H Sample.now Sample.weekend "MX" eq_refl).
  vm_compute in H; discriminate.
Qed.

(** C5 (amended): the week anchor is midnight of the Monday of the week of
    [now].  The occurrences of one row are, in order, one per day code that
    [DAY_MAP] knows, the other codes being passed over: their number is the
    number of known codes, which is the length of the day code when every
    character is known; the occurrence of a code carries the row's fields and
    the id [section_id-code], and when the row's start (end) time holds a
    clock its start (end) is on that code's weekday of the week of [now] at
    that clock.  A time string with hour and minute only has second 0.  A row
    with a null or empty day code gives the single occurrence of Monday. *)
Theorem expansion_of_row (now : Z) (row : Row) :
  let produced := rowsToEvents (Some now) [row] in
  getWeekStart (Some now) = Some (MakeDate (week_monday now) 0)
  /\ WeekDay (MakeDate (week_monday now) 0) = 1
  /\ week_monday now <= Day now < week_monday now + 7
  /\ Forall2 (occurrence_on now row) (filter recognized (day_codes row))
       produced
  /\ List.length produced
     = List.length (filter recognized (day_codes row))
  /\ (forall s,
         day_code row = Some s ->
         s <> EmptyString ->
         forallb recognized (split_chars s) = true ->
         List.length produced = String.length s)
  /\ (day_code row = None \/ day_code row = Some EmptyString ->
      exists e, produced = [e] /\ occurrence_on now row "M" e)
  /\ (forall time hh mm h m,
         split_colon time = [hh; mm] ->
         Number hh = Some h ->
         Number mm = Some m ->
         clock_of time = Some (h, m, 0)).
Proof.
  intros produced.
  assert (Hshape : Forall2 (occurrence_on now row)
                     (filter recognized (day_codes row)) produced).
  { subst produced; rewrite rowsToEvents_single; apply expansion_of_codes. }
  assert (Hlen : List.length produced
                 = List.length (filter recognized (day_codes row))).
  { symmetry; eapply Forall2_length; exact Hshape. }
  destruct (week_monday_spec now) as [Hmon Hweek].
  repeat split; try assumption; try lia.
  - apply getWeekStart_valid.
  - intros s Hs Hne Hall.
    rewrite Hlen.
    assert (Hcodes : day_codes row = split_chars s).
    { unfold day_codes; rewrite Hs.
      destruct s; [contradiction | reflexivity]. }
    rewrite Hcodes, (filter_all _ _ Hall).
    apply length_split_chars.
  - intros Hempty.
    assert (Hcodes : day_codes row = ["M"%char]).
    { unfold day_codes; destruct Hempty as [-> | ->]; reflexivity. }
    rewrite Hcodes in Hshape; simpl in Hshape.
    inversion Hshape as [| c e l l' He Hrest]; subst.
    inversion Hrest; subst.
    exists e; split; [reflexivity | assumption].
  - intros time hh mm h m Hsplit Hh Hm.
    unfold clock_of; rewrite Hsplit; simpl.
    rewrite Hh, Hm; reflexivity.
Qed.

(** ** Occurrence identities *)

Lemma string_length_app (s t : string) :
  String.length (s ++ t) = (String.length s + String.length t)%nat.
Proof. induction s as [| c s IH]; simpl; congruence. Qed.

Lemma string_app_inj (s1 s2 x y : string) :
  String.length s1 = String.length s2 ->
  (s1 ++ x = s2 ++ y)%string -> s1 = s2 /\ x = y.
Proof.
  revert s2; induction s1 as [| c s1 IH]; intros [| c2 s2]; simpl;
    intros Hlen Heq; try discriminate.
  - split; [reflexivity | assumption].
  - injection Heq as -> Heq; injection Hlen as Hlen.
    destruct (IH s2 Hlen Heq) as [-> ->]; split; reflexivity.
Qed.

Lemma occurrence_id_inj (s1 s2 : string) (c1 c2 : ascii) :
  (s1 ++ "-" ++ String c1 EmptyString = s2 ++ "-" ++ String c2 EmptyString)%string
  -> s1 = s2 /\ c1 = c2.
Proof.
  intros Heq.
  assert (Hlen : String.length s1 = String.length s2).
  { apply (f_equal String.length) in Heq.
    rewrite !string_length_app in Heq; simpl in Heq; lia. }
  destruct (string_app_inj _ _ _ _ Hlen Heq) as [-> Htail].
  simpl in Htail; injection Htail as ->; split; reflexivity.
Qed.

Lemma ids_of_row (monday : Date) (row : Row) :
  map id (events_of_row monday row)
  = map (fun c => (ToString (section_id row) ++ "-" ++ String c EmptyString)%string)
      (filter recognized (day_codes row)).
Proof.
  unfold events_of_row.
  induction (day_codes row) as [| c codes IH]; simpl; [reflexivity|].
  rewrite map_app, IH.
  unfold recognized at 2, events_of_code.
  destruct (DAY_MAP c); reflexivity.
Qed.

Lemma In_events_of_row (monday : Date) (row : Row) (e : Event) :
  In e (events_of_row monday row) ->
  exists code,
    In code (day_codes row)
    /\ recognized code = true
    /\ sectionId e = section_id row
    /\ id e = (ToString (sectionId e) ++ "-" ++ String code EmptyString)%string.
Proof.
  unfold events_of_row; rewrite in_flat_map.
  intros [code [Hin He]]; exists code; split; [assumption|].
  revert He; unfold events_of_code, recognized.
  destruct (DAY_MAP code); [|intros []].
  intros [<- | []]; simpl; repeat split.
Qed.

Lemma NoDup_ids (monday : Date) (rows : list Row) :
  NoDup (map (fun row => ToString (section_id row)) rows) ->
  Forall (fun row => NoDup (filter recognized (day_codes row))) rows ->
  NoDup (map id (flat_map (events_of_row monday) rows)).
Proof.
  induction rows as [| row rows IH]; simpl; intros Hsids Hcodes.
  { constructor. }
  inversion Hsids as [| sid l Hfresh Hrest]; subst.
  inversion Hcodes as [| r l Hrow Hrows]; subst.
  rewrite map_app; apply NoDup_app.
  - rewrite ids_of_row.
    apply NoDup_map_NoDup_ForallPairs; [|assumption].
    intros c1 c2 _ _ Heq; apply occurrence_id_inj in Heq; tauto.
  - apply IH; assumption.
  - intros a Ha Hb.
    rewrite ids_of_row in Ha; apply in_map_iff in Ha as [c [<- _]].
    apply in_map_iff in Hb as [e [He Hin]].
    apply in_flat_map in Hin as [row' [Hrow' Hin]].
    apply In_events_of_row in Hin as [c' [_ [_ [Hsid Hid]]]].
    rewrite Hid, Hsid in He.
    apply occurrence_id_inj in He as [Hs _].
    apply Hfresh, in_map_iff; exists row'; split; assumption.
Qed.

(** C8, the part of the claim that fails: two rows of one section that
    both meet on Monday give two occurrences with the same id. *)
Lemma occurrence_ids_can_repeat :
  ~ (forall (now : Date) (rows : list Row),
        NoDup (map id (rowsToEvents now rows))).
Proof.
  intros H.
  specialize (H (Some Sample.now) [Sample.cs101; Sample.cs101_lab]).
  vm_compute in H.
  inversion H as [| x l Hnotin _]; subst.
  apply Hnotin; right; left; reflexivity.
Qed.

(** C8 (amended): every occurrence produced from a sequence of rows has
    the section identity of one of the rows and, as id, that identity in
    string form followed by "-" and one of the row's known day characters;
    two such ids are equal exactly when the section identities in string form
    and the day characters are equal; so the ids of the produced set are
    pairwise distinct when the rows have pairwise distinct section identities
    (in string form) and no row's day code repeats a known character. *)
Theorem occurrence_ids (now : Date) (rows : list Row) :
  (forall e,
      In e (rowsToEvents now rows) ->
      exists row code,
        In row rows
        /\ In code (day_codes row)
        /\ recognized code = true
        /\ sectionId e = section_id row
        /\ id e = (ToString (sectionId e) ++ "-" ++ String code EmptyString)%string)
  /\ (forall sid1 sid2 c1 c2,
         (ToString sid1 ++ "-" ++ String c1 EmptyString
          = ToString sid2 ++ "-" ++ String c2 EmptyString)%string
         <-> ToString sid1 = ToString sid2 /\ c1 = c2)
  /\ (NoDup (map (fun row => ToString (section_id row)) rows) ->
      Forall (fun row => NoDup (filter recognized (day_codes row))) rows ->
      NoDup (map id (rowsToEvents now rows))).
Proof.
  repeat split.
  - intros e Hin; unfold rowsToEvents in Hin.
    apply in_flat_map in Hin as [row [Hrow Hin]].
    apply In_events_of_row in Hin as [code H].
    exists row, code; tauto.
  - apply occurrence_id_inj in H; tauto.
  - apply occurrence_id_inj in H; tauto.
  - intros [-> ->]; reflexivity.
  - intros Hsids Hcodes; unfold rowsToEvents.
    apply NoDup_ids; assumption.
Qed.

(** ** Occurrences on different weekdays *)

Lemma digit_of_nonneg (c : ascii) (d : Z) : digit_of c = Some d -> 0 <= d.
Proof.
  unfold digit_of.
  destruct (_ && _) eqn:H; [|discriminate].
  apply andb_true_iff in H as [H1 _]; apply Z.leb_le in H1.
  intros [= <-]; lia.
Qed.

Lemma digits_value_nonneg (s : string) (acc n : Z) :
  0 <= acc -> digits_value s acc = Some n -> 0 <= n.
Proof.
  revert acc; induction s as [| c s IH]; simpl; intros acc Hacc.
  - intros [= <-]; assumption.
  - destruct (digit_of c) as [d|] eqn:Hd; [|discriminate].
    apply digit_of_nonneg in Hd.
    apply (IH (10 * acc + d)); lia.
Qed.

Lemma Number_nonneg_all (l : list string) :
  Forall (fun n : num => forall z, n = Some z -> 0 <= z) (map Number l).
Proof.
  induction l as [| s l IH]; simpl; constructor; [|exact IH].
  intros z Hz; apply (digits_value_nonneg s 0 z); [lia | exact Hz].
Qed.

Lemma clock_of_nonneg (time : string) (h m s : Z) :
  clock_of time = Some (h, m, s) -> 0 <= h /\ 0 <= m /\ 0 <= s.
Proof.
  unfold clock_of.
  pose proof (Number_nonneg_all (split_colon time)) as Hall.
  destruct (map Number (split_colon time)) as [| [h'|] [| [m'|] rest]];
    try discriminate.
  inversion Hall as [| ? ? Hh Hall1]; subst.
  inversion Hall1 as [| ? ? Hm Hall2]; subst.
  specialize (Hh h' eq_refl); specialize (Hm m' eq_refl).
  destruct rest as [| [s'|] rest']; try discriminate.
  - intros [= <- <- <-]; lia.
  - inversion Hall2 as [| ? ? Hs _]; subst; specialize (Hs s' eq_refl).
    intros [= <- <- <-]; lia.
Qed.

Lemma time_of_day_nonneg (time : string) (a : Z) :
  time_of_day time = Some a -> 0 <= a.
Proof.
  unfold time_of_day.
  destruct (clock_of time) as [[[h m] s]|] eqn:Hclock; [|discriminate].
  apply clock_of_nonneg in Hclock.
  intros [= <-]; unfold_time; lia.
Qed.

Lemma at_time_of_day (D : Z) (time : string) (a : Z) :
  time_of_day time = Some a ->
  at_time (Some (MakeDate D 0)) time = Some (MakeDate D a).
Proof.
  unfold time_of_day.
  destruct (clock_of time) as [[[h m] s]|] eqn:Hclock; [|discriminate].
  rewrite (at_time_clock _ _ _ _ _ Hclock).
  intros [= <-]; simpl.
  rewrite Day_MakeDate by (unfold msPerDay; lia); reflexivity.
Qed.

(** Shape of an occurrence of a well-timed row: it lies within one day of
    the week of [now]. *)
Lemma In_events_of_row_timed (now : Z) (row : Row) (e : Event) :
  well_timed row ->
  In e (events_of_row (Some (MakeDate (week_monday now) 0)) row) ->
  exists code wd a b,
    DAY_MAP code = Some wd
    /\ id e = (ToString (section_id row) ++ "-" ++ String code EmptyString)%string
    /\ start e = Some (MakeDate (week_monday now + (wd - 1)) a)
    /\ end_ e = Some (MakeDate (week_monday now + (wd - 1)) b)
    /\ 0 <= a < b /\ b <= msPerDay.
Proof.
  intros [a [b [Ha [Hb Hab]]]].
  unfold events_of_row; rewrite in_flat_map.
  intros [code [_ He]]; revert He; unfold events_of_code.
  destruct (DAY_MAP code) as [wd|] eqn:Hmap; [|intros []].
  intros [<- | []].
  cbn [id start end_].
  rewrite baseDate_valid.
  rewrite (at_time_of_day _ _ _ Ha), (at_time_of_day _ _ _ Hb).
  pose proof (time_of_day_nonneg _ _ Ha).
  exists code, wd, a, b; repeat split; try reflexivity; try assumption; lia.
Qed.

Lemma In_rowsToEvents_timed (now : Z) (rows : list Row) (e : Event) :
  Forall well_timed rows ->
  In e (rowsToEvents (Some now) rows) ->
  exists D a b,
    start e = Some (MakeDate D a)
    /\ end_ e = Some (MakeDate D b)
    /\ 0 <= a < b /\ b <= msPerDay.
Proof.
  intros Hall; unfold rowsToEvents; rewrite getWeekStart_valid, in_flat_map.
  intros [row [Hrow Hin]].
  rewrite Forall_forall in Hall.
  destruct (In_events_of_row_timed now row e (Hall row Hrow) Hin)
    as [code [wd [a [b [_ [_ [Hs [He Hab]]]]]]]].
  eauto 6.
Qed.

Lemma WeekDay_MakeDate (D a : Z) :
  0 <= a < msPerDay -> WeekDay (MakeDate D a) = (D + 4) mod 7.
Proof.
  intros Ha; unfold WeekDay; rewrite Day_MakeDate by assumption; reflexivity.
Qed.

(** An interval that ends by the midnight after its start does not overlap
    an interval inside another day. *)
Lemma no_overlap_across_days (s e D a b : Z) :
  e <= (Day s + 1) * msPerDay ->
  0 <= a < b -> b <= msPerDay ->
  WeekDay (MakeDate D a) <> WeekDay s ->
  timesOverlap (Some s) (Some e) (Some (MakeDate D a)) (Some (MakeDate D b))
  = false.
Proof.
  intros He Hab Hb Hwd.
  rewrite WeekDay_MakeDate in Hwd by lia.
  apply timesOverlap_false_iff.
  assert (HD : D <> Day s).
  { intros ->; apply Hwd; reflexivity. }
  assert (Hs : Day s * msPerDay <= s).
  { time_arith. }
  unfold MakeDate; unfold msPerDay in *.
  destruct (Z.lt_total D (Day s)) as [Hlt | [Heq | Hgt]];
    [left | contradiction | right]; nia.
Qed.

Lemma conflicts_with_apart (movedEvent other : Event) :
  timesOverlap (start movedEvent) (end_ movedEvent) (start other) (end_ other)
  = false ->
  conflicts_with movedEvent other = [].
Proof.
  intros Hov; unfold conflicts_with; rewrite Hov.
  now destruct (String.eqb _ _).
Qed.

Lemma detect_conflicts_filter (keep : Event -> bool) (events : list Event)
  (movedEvent : Event) :
  (forall other,
      In other events -> keep other = false ->
      conflicts_with movedEvent other = []) ->
  detect_conflicts events movedEvent
  = detect_conflicts (filter keep events) movedEvent.
Proof.
  unfold detect_conflicts.
  induction events as [| o events IH]; simpl; intros H; [reflexivity|].
  rewrite IH by (intros other Hin; apply H; now right).
  destruct (keep o) eqn:Hk; simpl; [reflexivity|].
  rewrite (H o (or_introl eq_refl) Hk); reflexivity.
Qed.

(** C10, the part of the claim that fails: a drop that keeps the weekday
    of its start but ends after midnight conflicts with the section's own
    occurrence of the next day. *)
Lemma late_move_conflicts_with_next_day :
  ~ (forall (now : Z) (rows : list Row) (event other : Event) (s e : Z)
            (isAllDay : bool),
        Forall well_timed rows ->
        In event (rowsToEvents (Some now) rows) ->
        In other (rowsToEvents (Some now) rows) ->
        timeSlotId other = timeSlotId event ->
        s < e ->
        getDay (start event) = getDay (Some s) ->
        getDay (start other) <> getDay (Some s) ->
        conflicts_with (moved event (Some s) (Some e) isAllDay) other = []).
Proof.
  intros H.
  pose (events := rowsToEvents (Some Sample.now) [Sample.night]).
  pose (dummy := moved Sample.cs101_monday None None false).
  specialize (H Sample.now [Sample.night] (nth 0 events dummy)
                (nth 1 events dummy)
                (Sample.monday + MakeTime 23 30 0 0)
                (Sample.monday + MakeTime 24 30 0 0) false).
  assert (Hwt : Forall well_timed [Sample.night]).
  { constructor; [|constructor].
    exists (MakeTime 0 0 0 0), (MakeTime 1 0 0 0).
    repeat split; vm_compute; congruence. }
  assert (Hend : conflicts_with
                   (moved (nth 0 events dummy)
                      (Some (Sample.monday + MakeTime 23 30 0 0))
                      (Some (Sample.monday + MakeTime 24 30 0 0)) false)
                   (nth 1 events dummy) = []).
  { apply H.
    - exact Hwt.
    - vm_compute; left; reflexivity.
    - vm_compute; right; left; reflexivity.
    - reflexivity.
    - vm_compute; reflexivity.
    - vm_compute; reflexivity.
    - vm_compute; discriminate. }
  vm_compute in Hend; discriminate.
Qed.

(** C10 (amended): among the occurrences produced from rows whose start
    time is earlier than their end time, the end no later than 24:00:00, two
    occurrences on different weekdays never overlap.  A moved occurrence
    whose new end is no later than the midnight that closes the day of its
    new start overlaps no produced occurrence of another weekday and gets no
    conflict entry from it, so its conflict list is the one computed from the
    occurrences of its own weekday; in particular, when a produced occurrence
    is moved within its weekday in this way, the occurrences produced from
    the same row contribute nothing to its conflict list. *)
Theorem other_weekdays_never_conflict (now : Z) (rows : list Row) :
  Forall well_timed rows ->
  let produced := rowsToEvents (Some now) rows in
  (forall e1 e2,
      In e1 produced -> In e2 produced ->
      getDay (start e1) <> getDay (start e2) ->
      timesOverlap (start e1) (end_ e1) (start e2) (end_ e2) = false)
  /\ (forall event s e isAllDay other,
         In other produced ->
         e <= (Day s + 1) * msPerDay ->
         getDay (start other) <> getDay (Some s) ->
         timesOverlap (Some s) (Some e) (start other) (end_ other) = false
         /\ conflicts_with (moved event (Some s) (Some e) isAllDay) other = [])
  /\ (forall event s e isAllDay,
         e <= (Day s + 1) * msPerDay ->
         detect_conflicts produced (moved event (Some s) (Some e) isAllDay)
         = detect_conflicts
             (filter (fun other =>
                        negb (num_strict_neq (getDay (start other))
                                (getDay (Some s))))
                produced)
             (moved event (Some s) (Some e) isAllDay))
  /\ (forall row event sibling s e isAllDay,
         In row rows ->
         In event (rowsToEvents (Some now) [row]) ->
         In sibling (rowsToEvents (Some now) [row]) ->
         getDay (start event) = getDay (Some s) ->
         e <= (Day s + 1) * msPerDay ->
         conflicts_with (moved event (Some s) (Some e) isAllDay) sibling = []).
Proof.
  intros Hall produced.
  assert (HB : forall event s e isAllDay other,
             In other produced ->
             e <= (Day s + 1) * msPerDay ->
             getDay (start other) <> getDay (Some s) ->
             timesOverlap (Some s) (Some e) (start other) (end_ other) = false
             /\ conflicts_with (moved event (Some s) (Some e) isAllDay) other
                = []).
  { intros event s e isAllDay other Hin He Hday.
    destruct (In_rowsToEvents_timed now rows other Hall Hin)
      as [D [a [b [Hs [Hen [Hab Hb]]]]]].
    assert (Hov : timesOverlap (Some s) (Some e) (start other) (end_ other)
                  = false).
    { rewrite Hs, Hen; apply no_overlap_across_days; try assumption.
      rewrite Hs in Hday; simpl in Hday; congruence. }
    split; [exact Hov | apply conflicts_with_apart; exact Hov]. }
  split; [|split; [exact HB | split]].
  - intros e1 e2 H1 H2 Hday.
    destruct (In_rowsToEvents_timed now rows e1 Hall H1)
      as [D [a [b [Hs [Hen [Hab Hb]]]]]].
    rewrite Hs, Hen.
    apply (HB e1 (MakeDate D a) (MakeDate D b) false e2 H2).
    + rewrite Day_MakeDate by lia; unfold MakeDate; lia.
    + rewrite Hs in Hday; congruence.
  - intros event s e isAllDay He.
    apply detect_conflicts_filter.
    intros other Hin Hkeep.
    apply negb_false_iff in Hkeep.
    apply (HB event s e isAllDay other Hin He).
    intros Heq; rewrite Heq in Hkeep; simpl in Hkeep.
    rewrite Z.eqb_refl in Hkeep; discriminate.
  - intros row event sibling s e isAllDay Hrow Hev Hsib Hday He.
    rewrite Forall_forall in Hall; pose proof (Hall row Hrow) as Hwt.
    rewrite rowsToEvents_single in Hev, Hsib.
    destruct (In_events_of_row_timed now row event Hwt Hev)
      as [c [wd [a [b [Hmap [Hid [Hs [_ [Hab Hb]]]]]]]]].
    destruct (In_events_of_row_timed now row sibling Hwt Hsib)
      as [c' [wd' [a' [b' [Hmap' [Hid' [Hs' [Hen' [Hab' Hb']]]]]]]]].
    destruct (String.eqb (id sibling) (id event)) eqn:Hsame.
    { unfold conflicts_with; cbn [id moved]; rewrite Hsame; reflexivity. }
    apply String.eqb_neq in Hsame.
    assert (Hwd : wd' <> wd).
    { intros ->; apply Hsame.
      rewrite Hid, Hid', (DAY_MAP_inj c c' wd Hmap Hmap'); reflexivity. }
    apply conflicts_with_apart; cbn [start end_ moved].
    rewrite Hs', Hen'; apply no_overlap_across_days; try assumption.
    rewrite Hs in Hday; simpl in Hday; injection Hday as Hday.
    rewrite <- Hday, !WeekDay_MakeDate by lia.
    pose proof (DAY_MAP_range _ _ Hmap); pose proof (DAY_MAP_range _ _ Hmap').
    generalize (week_monday now); intros M.
    Z.div_mod_to_equations; lia.
Qed.

(** ** The theorems on the sample week *)

Example sample_week_first : hd_error Sample.week = Some Sample.cs101_monday.
Proof. vm_compute; reflexivity. Qed.

(** Monday's CS101 dropped on 09:30-10:30 and the override accepted: one
    room entry in the dialog, one write, and both CS101 occurrences moved. *)
Example sample_drop_accepted :
  let movedEvent :=
    moved Sample.cs101_monday (Some (Sample.monday + MakeTime 9 30 0 0))
      (Some (Sample.monday + MakeTime 10 30 0 0)) false in
  let o :=
    Multi.handleEventDrop Sample.accepting Sample.multi_state
      Sample.cs101_monday (Some (Sample.monday + MakeTime 9 30 0 0))
      (Some (Sample.monday + MakeTime 10 30 0 0)) false in
  effects o
  = [Confirm
       (room_conflict movedEvent (nth 2 Sample.week Sample.cs101_monday)
          ++ Multi.override_prompt)
       true;
     StoreUpdate (JNum 100) "09:30:00" "10:30:00" None]
  /\ map (fun e => (id e, toTimeString (start e), toTimeString (end_ e)))
       (events_after o Sample.week)
     = [("1-M", "09:30:00", "10:30:00");
        ("1-W", "09:30:00", "10:30:00");
        ("2-M", "09:30:00", "10:30:00")]
  /\ map (fun e => getDay (start e)) (events_after o Sample.week)
     = [Some 1; Some 3; Some 1].
Proof. vm_compute; repeat split. Qed.

(** The same drop in [src/ScheduleCalendar.jsx]: the alert, and nothing
    else. *)
Example sample_drop_blocked :
  ScheduleCalendar.handleEventDrop Sample.accepting Sample.single_state
    Sample.cs101_monday (Some (Sample.monday + MakeTime 9 30 0 0))
    (Some (Sample.monday + MakeTime 10 30 0 0)) false
  = {| effects :=
         [Alert
            (room_conflict
               (moved Sample.cs101_monday
                  (Some (Sample.monday + MakeTime 9 30 0 0))
                  (Some (Sample.monday + MakeTime 10 30 0 0)) false)
               (nth 2 Sample.week Sample.cs101_monday))];
       setEvents := None |}.
Proof. vm_compute; reflexivity. Qed.

(** Dropping Monday's CS101 on Tuesday is rejected. *)
Lemma day_change_rejected_witness :
  Multi.handleEventDrop Sample.accepting Sample.multi_state
    Sample.cs101_monday
    (Some (Sample.monday + msPerDay + MakeTime 9 0 0 0))
    (Some (Sample.monday + msPerDay + MakeTime 10 0 0 0)) false
  = {| effects := [Alert day_notice]; setEvents := None |}.
Proof.
  refine (proj1 (day_change_rejected Sample.accepting Sample.multi_state
                   Sample.single_state Sample.cs101_monday _ _ false [] _)).
  vm_compute; discriminate.
Defined.

(** A failed write of the move to 11:00-12:00 leaves the week as it was. *)
Lemma store_failure_leaves_events_witness :
  events_after
    (Multi.handleEventDrop Sample.failing Sample.multi_state
       Sample.cs101_monday
       (Some (Sample.monday + MakeTime 11 0 0 0))
       (Some (Sample.monday + MakeTime 12 0 0 0)) false)
    Sample.week
  = Sample.week.
Proof.
  refine (proj1 (proj2 (proj1 (store_failure_leaves_events Sample.failing
                                 Sample.multi_state Sample.single_state
                                 Sample.cs101_monday _ _ false Sample.week)
                          (JNum 100) "11:00:00" "12:00:00" "timeout" _))).
  vm_compute; left; reflexivity.
Defined.

(** Declining the override of the room conflict with MA201 drops the move. *)
Lemma conflicts_gate_commit_witness :
  setEvents
    (Multi.handleEventDrop Sample.declining Sample.multi_state
       Sample.cs101_monday
       (Some (Sample.monday + MakeTime 9 30 0 0))
       (Some (Sample.monday + MakeTime 10 30 0 0)) false)
  = None.
Proof.
  pose proof (conflicts_gate_commit Sample.declining Sample.multi_state
                Sample.single_state Sample.cs101_monday
                (Some (Sample.monday + MakeTime 9 30 0 0))
                (Some (Sample.monday + MakeTime 10 30 0 0)) false eq_refl)
    as H.
  cbv zeta in H.
  destruct H as [[Hconf _] _].
  destruct Hconf as [_ [Hdecline _]].
  - vm_compute; discriminate.
  - rewrite Hdecline; reflexivity.
Defined.

(** Moved to 09:30-10:30, Monday's CS101 gets the room entry from MA201 and
    no other. *)
Lemma conflict_list_shape_witness :
  let movedEvent :=
    moved Sample.cs101_monday (Some (Sample.monday + MakeTime 9 30 0 0))
      (Some (Sample.monday + MakeTime 10 30 0 0)) false in
  let other := nth 2 Sample.week Sample.cs101_monday in
  conflicts_with movedEvent other = [room_conflict movedEvent other].
Proof.
  intros movedEvent other.
  destruct (conflict_list_shape Sample.week movedEvent)
    as [_ [_ [_ [Hshape _]]]].
  rewrite (Hshape other).
  - vm_compute; reflexivity.
  - vm_compute; discriminate.
  - vm_compute; reflexivity.
Defined.

(** With professor "Lee" selected, Monday's CS101 is shown. *)
Lemma filter_by_facets_witness :
  In (nth 0 Sample.week Sample.cs101_monday)
    (Multi.filteredEvents
       {| Multi.events := Sample.week; Multi.professorFilter := [JStr "Lee"];
          Multi.roomFilter := []; Multi.gradeFilter := [] |}).
Proof.
  apply (proj1 (filter_by_facets Sample.week [JStr "Lee"] [] [])).
  repeat split.
  - vm_compute; left; reflexivity.
  - right; vm_compute; left; reflexivity.
  - left; reflexivity.
  - left; reflexivity.
Defined.

(** Accepting the override moves both CS101 occurrences and leaves MA201. *)
Lemma commit_updates_time_slot_witness :
  Forall2
    (moved_with Sample.cs101_monday (Sample.monday + MakeTime 9 30 0 0)
       (Sample.monday + MakeTime 10 30 0 0))
    Sample.week
    (events_after
       (Multi.handleEventDrop Sample.accepting Sample.multi_state
          Sample.cs101_monday
          (Some (Sample.monday + MakeTime 9 30 0 0))
          (Some (Sample.monday + MakeTime 10 30 0 0)) false)
       Sample.week).
Proof.
  refine (proj2 (proj1 (commit_updates_time_slot Sample.accepting
                          Sample.multi_state Sample.single_state
                          Sample.cs101_monday _ _ false Sample.week)
                   (JNum 100) "09:30:00" "10:30:00" _)).
  vm_compute; right; left; reflexivity.
Defined.

(** CS101, day code "MW", has two occurrences. *)
Lemma expansion_of_row_witness :
  List.length (rowsToEvents (Some Sample.now) [Sample.cs101]) = 2%nat.
Proof.
  destruct (expansion_of_row Sample.now Sample.cs101)
    as [_ [_ [_ [_ [_ [Hlen _]]]]]].
  apply (Hlen "MW").
  - reflexivity.
  - discriminate.
  - reflexivity.
Defined.

(** The ids of the week of CS101 and MA201 are pairwise distinct. *)
Lemma occurrence_ids_witness :
  NoDup (map id (rowsToEvents (Some Sample.now) [Sample.cs101; Sample.ma201])).
Proof.
  apply (occurrence_ids (Some Sample.now) [Sample.cs101; Sample.ma201]).
  - vm_compute.
    constructor; [intros [H | []]; discriminate|].
    constructor; [intros []|constructor].
  - constructor; [|constructor; [|constructor]]; vm_compute.
    + constructor; [intros [H | []]; discriminate|].
      constructor; [intros []|constructor].
    + constructor; [intros []|constructor].
Defined.

(** Moved to 09:30-10:30, Monday's CS101 gets nothing from Wednesday's. *)
Lemma other_weekdays_never_conflict_witness :
  conflicts_with
    (moved (nth 0 Sample.week Sample.cs101_monday)
       (Some (Sample.monday + MakeTime 9 30 0 0))
       (Some (Sample.monday + MakeTime 10 30 0 0)) false)
    (nth 1 Sample.week Sample.cs101_monday)
  = [].
Proof.
  assert (Hwt : Forall well_timed [Sample.cs101; Sample.ma201]).
  { constructor; [|constructor; [|constructor]].
    - exists (MakeTime 9 0 0 0), (MakeTime 10 0 0 0).
      repeat split; vm_compute; congruence.
    - exists (MakeTime 9 30 0 0), (MakeTime 10 30 0 0).
      repeat split; vm_compute; congruence. }
  destruct (other_weekdays_never_conflict Sample.now
              [Sample.cs101; Sample.ma201] Hwt) as [_ [_ [_ Hsib]]].
  apply (Hsib Sample.cs101).
  - left; reflexivity.
  - vm_compute; left; reflexivity.
  - vm_compute; right; left; reflexivity.
  - vm_compute; reflexivity.
  - vm_compute; discriminate.
Defined.

(** * Further properties of the code *)

(** ** The week anchor *)

Lemma week_monday_of_week (now t : Z) :
  MakeDate (week_monday now) 0 <= t < MakeDate (week_monday now + 7) 0 ->
  week_monday t = week_monday now.
Proof.
  intros Ht.
  assert (HD : week_monday now <= Day t < week_monday now + 7).
  { revert Ht; generalize (week_monday now); intros W Ht; time_arith. }
  destruct (week_monday_spec now) as [Hmon _].
  unfold WeekDay in Hmon.
  rewrite Day_MakeDate in Hmon by (unfold msPerDay; lia).
  revert HD Hmon; generalize (week_monday now); intros W HD Hmon.
  unfold week_monday, WeekDay.
  revert HD; generalize (Day t); intros D HD.
  Z.div_mod_to_equations; lia.
Qed.

(** X1: [getWeekStart] of a valid instant is a valid date at midnight
    (time within the day 0) of a Monday, not after the instant and less than
    seven days before it; and it is the same date for every instant from that
    midnight up to, not including, the midnight seven days later (so
    [getWeekStart] applied to its own result gives that result). *)
Theorem getWeekStart_week (now : Z) :
  exists m,
    getWeekStart (Some now) = Some m
    /\ TimeWithinDay m = 0
    /\ WeekDay m = 1
    /\ m <= now < m + 7 * msPerDay
    /\ getWeekStart (Some m) = Some m
    /\ (forall t,
           m <= t < m + 7 * msPerDay -> getWeekStart (Some t) = Some m).
Proof.
  exists (MakeDate (week_monday now) 0).
  destruct (week_monday_spec now) as [Hmon Hweek].
  assert (Hsame : forall t,
             MakeDate (week_monday now) 0 <= t
             < MakeDate (week_monday now) 0 + 7 * msPerDay ->
             getWeekStart (Some t) = Some (MakeDate (week_monday now) 0)).
  { intros t Ht; rewrite getWeekStart_valid, (week_monday_of_week now t);
      [reflexivity|].
    unfold MakeDate in *; lia. }
  repeat split.
  - apply getWeekStart_valid.
  - generalize (week_monday now); intros W; time_arith.
  - exact Hmon.
  - revert Hweek; generalize (week_monday now); intros W H; time_arith.
  - revert Hweek; generalize (week_monday now); intros W H; time_arith.
  - apply Hsame; unfold msPerDay; lia.
  - exact Hsame.
Qed.

Lemma getWeekStart_week_witness :
  getWeekStart (Some (Sample.monday + 6 * msPerDay + 5))
  = Some Sample.monday.
Proof.
  destruct (getWeekStart_week Sample.now) as [m [Hm [_ [_ [_ [_ Hall]]]]]].
  vm_compute in Hm; injection Hm as <-.
  apply Hall.
  vm_compute; split; [discriminate | reflexivity].
Defined.

(** X2: the occurrences do not depend on the moment of the week at which
    they are built: for every instant [later] of the week that
    [getWeekStart] gives for [now], [rowsToEvents] at [later] returns the
    list it returns at [now]. *)
Theorem rowsToEvents_same_week (now later m : Z) (rows : list Row) :
  getWeekStart (Some now) = Some m ->
  m <= later < m + 7 * msPerDay ->
  rowsToEvents (Some later) rows = rowsToEvents (Some now) rows.
Proof.
  intros Hm Hlater.
  destruct (getWeekStart_week now) as [m' [Hm' [_ [_ [_ [_ Hall]]]]]].
  assert (m' = m) by congruence; subst m'.
  unfold rowsToEvents; rewrite (Hall later Hlater), Hm; reflexivity.
Qed.

Lemma rowsToEvents_same_week_witness :
  rowsToEvents (Some (Sample.monday + 4 * msPerDay + 7))
    [Sample.cs101; Sample.ma201]
  = Sample.week.
Proof.
  apply (rowsToEvents_same_week Sample.now _ Sample.monday).
  - vm_compute; reflexivity.
  - vm_compute; split; [discriminate | reflexivity].
Defined.

(** ** The time string *)

Lemma two_digits_all : forallb two_digits (seq 0 60) = true.
Proof. vm_compute; reflexivity. Qed.

Lemma padStart2_digits (n : Z) :
  0 <= n < 60 ->
  exists a b,
    padStart2 (string_of_Z n) = String a (String b EmptyString)
    /\ Ascii.eqb a ":" = false
    /\ Ascii.eqb b ":" = false
    /\ Number (String a (String b EmptyString)) = Some n.
Proof.
  intros Hn.
  pose proof two_digits_all as Hall.
  rewrite forallb_forall in Hall.
  assert (Hin : In (Z.to_nat n) (seq 0 60)).
  { apply in_seq; lia. }
  specialize (Hall _ Hin); unfold two_digits in Hall.
  rewrite Z2Nat.id in Hall by lia.
  destruct (padStart2 (string_of_Z n)) as [| a [| b [| c rest]]];
    try discriminate.
  apply andb_true_iff in Hall as [Hab Hnum].
  apply andb_true_iff in Hab as [Ha Hb].
  apply negb_true_iff in Ha, Hb.
  destruct (Number (String a (String b EmptyString))) as [v|] eqn:HN;
    [|discriminate].
  apply Z.eqb_eq in Hnum; subst v.
  exists a, b; split; [reflexivity|].
  split; [exact Ha|]; split; [exact Hb | exact HN].
Qed.

Lemma toTimeString_parts (t : Z) :
  exists hh mm ss,
    toTimeString (Some t) = (hh ++ ":" ++ mm ++ ":" ++ ss)%string
    /\ String.length hh = 2%nat
    /\ String.length mm = 2%nat
    /\ String.length ss = 2%nat
    /\ split_colon (hh ++ ":" ++ mm ++ ":" ++ ss) = [hh; mm; ss]
    /\ Number hh = Some (HourFromTime t)
    /\ Number mm = Some (MinFromTime t)
    /\ Number ss = Some (SecFromTime t).
Proof.
  destruct (clock_range t) as [Hh [Hm Hs]].
  destruct (padStart2_digits (HourFromTime t)) as [h1 [h2 [Eh [Hh1 [Hh2 Nh]]]]];
    [lia|].
  destruct (padStart2_digits (MinFromTime t)) as [m1 [m2 [Em [Hm1 [Hm2 Nm]]]]];
    [lia|].
  destruct (padStart2_digits (SecFromTime t)) as [s1 [s2 [Es [Hs1 [Hs2 Ns]]]]];
    [lia|].
  exists (String h1 (String h2 EmptyString)),
    (String m1 (String m2 EmptyString)),
    (String s1 (String s2 EmptyString)).
  repeat split; try assumption.
  - unfold toTimeString; simpl.
    rewrite Eh, Em, Es; reflexivity.
  - unfold split_colon; simpl.
    rewrite Hh1, Hh2, Hm1, Hm2, Hs1, Hs2; reflexivity.
Qed.

(** X3: for a valid date, [toTimeString] returns eight characters,
    two for the hour, a colon, two for the minute, a colon and two for the
    second; read back the way [rowsToEvents] reads a time
    ([split(':').map(Number)] and [setHours]), the string sets the hours,
    minutes and seconds of the date it was printed from. *)
Theorem toTimeString_round_trip (t : Z) :
  String.length (toTimeString (Some t)) = 8%nat
  /\ map Number (split_colon (toTimeString (Some t)))
     = [getHours (Some t); getMinutes (Some t); getSeconds (Some t)]
  /\ forall d,
       at_time d (toTimeString (Some t))
       = setHours d (getHours (Some t)) (getMinutes (Some t))
           (getSeconds (Some t)) (Some 0).
Proof.
  destruct (toTimeString_parts t)
    as [hh [mm [ss [E [Lh [Lm [Ls [Hsplit [Nh [Nm Ns]]]]]]]]]].
  assert (Hparts : map Number (split_colon (toTimeString (Some t)))
                   = [getHours (Some t); getMinutes (Some t);
                      getSeconds (Some t)]).
  { rewrite E, Hsplit; simpl; rewrite Nh, Nm, Ns; reflexivity. }
  repeat split.
  - rewrite E, !string_length_app, Lh, Lm, Ls; reflexivity.
  - exact Hparts.
  - intros d; unfold at_time; rewrite Hparts; reflexivity.
Qed.

(** ** Commit and reload *)

Lemma setHours_midnight (D a h m s : Z) :
  0 <= a < msPerDay ->
  setHours (Some (MakeDate D a)) (Some h) (Some m) (Some s) (Some 0)
  = setHours (Some (MakeDate D 0)) (Some h) (Some m) (Some s) (Some 0).
Proof.
  intros Ha; simpl.
  rewrite !Day_MakeDate by (unfold msPerDay in *; lia); reflexivity.
Qed.

Lemma apply_move_single (event e0 : Event) (dropStart dropEnd : Date) :
  timeSlotId e0 = timeSlotId event ->
  apply_move event dropStart dropEnd [e0]
  = [with_times e0
       (setHours (start e0) (getHours dropStart) (getMinutes dropStart)
          (or_zero (getSeconds dropStart)) (Some 0))
       (setHours (end_ e0) (getHours dropEnd) (getMinutes dropEnd)
          (or_zero (getSeconds dropEnd)) (Some 0))].
Proof.
  intros Hts; unfold apply_move; simpl.
  rewrite Hts, strict_eq_refl; reflexivity.
Qed.

Lemma apply_move_app (event : Event) (dropStart dropEnd : Date)
  (l1 l2 : list Event) :
  apply_move event dropStart dropEnd (l1 ++ l2)
  = (apply_move event dropStart dropEnd l1
     ++ apply_move event dropStart dropEnd l2)%list.
Proof. unfold apply_move; apply map_app. Qed.

(** X4: what a commit leaves in memory is what a reload shows.  For a row
    of the moved time slot whose stored times lie within the day (from
    00:00:00, before 24:00:00), the occurrences that [rowsToEvents] builds
    from the row carrying the two strings sent to the store are the
    occurrences that the [setEvents] updater makes of the row's present
    occurrences. *)
Theorem commit_agrees_with_reload
  (now s e : Z) (event : Event) (row : Row) (a b : Z) :
  time_slot_id row = timeSlotId event ->
  time_of_day (start_time row) = Some a -> a < msPerDay ->
  time_of_day (end_time row) = Some b -> b < msPerDay ->
  rowsToEvents (Some now)
    [restamped row (toTimeString (Some s)) (toTimeString (Some e))]
  = apply_move event (Some s) (Some e) (rowsToEvents (Some now) [row]).
Proof.
  intros Hts Ha Ha' Hb Hb'.
  rewrite !rowsToEvents_single.
  change (day_codes (restamped row (toTimeString (Some s))
                       (toTimeString (Some e))))
    with (day_codes row).
  pose proof (time_of_day_nonneg _ _ Ha) as Ha0.
  pose proof (time_of_day_nonneg _ _ Hb) as Hb0.
  induction (day_codes row) as [| code codes IH]; simpl; [reflexivity|].
  rewrite apply_move_app, <- IH; f_equal.
  unfold events_of_code.
  destruct (DAY_MAP code) as [wd|]; [|reflexivity].
  rewrite apply_move_single by exact Hts.
  cbn [start end_ start_time end_time restamped].
  rewrite baseDate_valid.
  rewrite (at_time_of_day _ _ _ Ha), (at_time_of_day _ _ _ Hb).
  destruct (toTimeString_round_trip s) as [_ [_ Hs]].
  destruct (toTimeString_round_trip e) as [_ [_ He]].
  rewrite Hs, He.
  simpl getHours; simpl getMinutes; simpl getSeconds; simpl or_zero.
  rewrite (setHours_midnight _ a) by lia.
  rewrite (setHours_midnight _ b) by lia.
  reflexivity.
Qed.

Lemma commit_agrees_with_reload_witness :
  rowsToEvents (Some Sample.now)
    [restamped Sample.cs101 "09:30:00" "10:30:00"]
  = apply_move Sample.cs101_monday
      (Some (Sample.monday + MakeTime 9 30 0 0))
      (Some (Sample.monday + MakeTime 10 30 0 0))
      (rowsToEvents (Some Sample.now) [Sample.cs101]).
Proof.
  apply (commit_agrees_with_reload Sample.now
           (Sample.monday + MakeTime 9 30 0 0)
           (Sample.monday + MakeTime 10 30 0 0)
           Sample.cs101_monday Sample.cs101
           (MakeTime 9 0 0 0) (MakeTime 10 0 0 0)).
  - reflexivity.
  - vm_compute; reflexivity.
  - vm_compute; reflexivity.
  - vm_compute; reflexivity.
  - vm_compute; reflexivity.
Defined.

(** ** What a commit keeps *)

Lemma setHours_again (d dropped : Date) :
  let h := getHours dropped in
  let m := getMinutes dropped in
  let s := or_zero (getSeconds dropped) in
  setHours (setHours d h m s (Some 0)) h m s (Some 0)
  = setHours d h m s (Some 0).
Proof.
  destruct dropped as [t|]; simpl; [|destruct d; reflexivity].
  destruct d as [x|]; simpl; [|reflexivity].
  destruct (clock_range t) as [Hh [Hm Hs]].
  rewrite Day_MakeDate by (apply MakeTime_range; assumption).
  reflexivity.
Qed.

Lemma apply_move_once (event : Event) (dropStart dropEnd : Date) (e : Event) :
  apply_move event dropStart dropEnd
    (apply_move event dropStart dropEnd [e])
  = apply_move event dropStart dropEnd [e].
Proof.
  unfold apply_move; simpl.
  destruct (strict_eq (timeSlotId e) (timeSlotId event)) eqn:Hts; simpl.
  - rewrite Hts; simpl.
    unfold with_times; simpl.
    rewrite (setHours_again (start e) dropStart).
    rewrite (setHours_again (end_ e) dropEnd).
    reflexivity.
  - rewrite Hts; reflexivity.
Qed.

(** X5: the [setEvents] updater of a move is idempotent: applied to its own
    result it changes nothing, whatever the occurrence set and the dropped
    dates (also invalid ones), so a commit that is applied twice leaves the
    set of the first application. *)
Theorem apply_move_idempotent
  (event : Event) (dropStart dropEnd : Date) (prev : list Event) :
  apply_move event dropStart dropEnd (apply_move event dropStart dropEnd prev)
  = apply_move event dropStart dropEnd prev.
Proof.
  induction prev as [| e prev IH]; [reflexivity|].
  change (e :: prev) with ([e] ++ prev)%list.
  rewrite !apply_move_app, IH.
  rewrite apply_move_once; reflexivity.
Qed.

Lemma apply_move_fields (event : Event) (dropStart dropEnd : Date)
  (prev : list Event) :
  Forall2
    (fun e0 e1 =>
       id e1 = id e0 /\ sectionId e1 = sectionId e0
       /\ patternSlotId e1 = patternSlotId e0
       /\ timeSlotId e1 = timeSlotId e0 /\ title e1 = title e0
       /\ professor e1 = professor e0 /\ room e1 = room e0
       /\ gradeLevel e1 = gradeLevel e0 /\ allDay e1 = allDay e0)
    prev (apply_move event dropStart dropEnd prev).
Proof.
  unfold apply_move.
  induction prev as [| e prev IH]; simpl; constructor; [|exact IH].
  destruct (negb _); simpl; repeat split.
Qed.

Lemma apply_move_map {A} (field : Event -> A) (event : Event)
  (dropStart dropEnd : Date) (prev : list Event) :
  (forall e newStart newEnd, field (with_times e newStart newEnd) = field e) ->
  map field (apply_move event dropStart dropEnd prev) = map field prev.
Proof.
  intros Hfield; unfold apply_move; rewrite map_map.
  apply map_ext; intros e.
  destruct (negb _); [reflexivity | apply Hfield].
Qed.

(** X6: a commit creates and removes no occurrence and touches no field
    other than start and end: the updated set has the occurrences of the old
    one position by position with the same id, section, pattern slot, time
    slot, title, professor, room, grade level and all-day flag; so the three
    facet lists of either version are the same before and after. *)
Theorem apply_move_keeps_fields
  (event : Event) (dropStart dropEnd : Date) (prev : list Event)
  (pf rf gf : list jsval) (p r g : jsval) :
  let next := apply_move event dropStart dropEnd prev in
  let mst evs :=
    {| Multi.events := evs; Multi.professorFilter := pf;
       Multi.roomFilter := rf; Multi.gradeFilter := gf |} in
  let sst evs :=
    {| ScheduleCalendar.events := evs; ScheduleCalendar.professorFilter := p;
       ScheduleCalendar.roomFilter := r; ScheduleCalendar.gradeFilter := g |} in
  List.length next = List.length prev
  /\ Forall2
       (fun e0 e1 =>
          id e1 = id e0 /\ sectionId e1 = sectionId e0
          /\ patternSlotId e1 = patternSlotId e0
          /\ timeSlotId e1 = timeSlotId e0 /\ title e1 = title e0
          /\ professor e1 = professor e0 /\ room e1 = room e0
          /\ gradeLevel e1 = gradeLevel e0 /\ allDay e1 = allDay e0)
       prev next
  /\ Multi.professors (mst next) = Multi.professors (mst prev)
  /\ Multi.rooms (mst next) = Multi.rooms (mst prev)
  /\ Multi.grades (mst next) = Multi.grades (mst prev)
  /\ ScheduleCalendar.professors (sst next)
     = ScheduleCalendar.professors (sst prev)
  /\ ScheduleCalendar.rooms (sst next) = ScheduleCalendar.rooms (sst prev)
  /\ ScheduleCalendar.grades (sst next) = ScheduleCalendar.grades (sst prev).
Proof.
  intros next mst sst; subst next.
  split; [unfold apply_move; apply length_map|].
  split; [apply apply_move_fields|].
  unfold Multi.professors, Multi.rooms, Multi.grades,
    ScheduleCalendar.professors, ScheduleCalendar.rooms,
    ScheduleCalendar.grades; simpl.
  rewrite !apply_move_map by reflexivity.
  repeat split.
Qed.

Lemma filter_map_commute {A B} (f : B -> bool) (g : A -> B) (l : list A) :
  filter f (map g l) = map g (filter (fun x => f (g x)) l).
Proof.
  induction l as [| x l IH]; simpl; [reflexivity|].
  destruct (f (g x)); simpl; congruence.
Qed.

Lemma filter_apply_move (keep : Event -> bool) (event : Event)
  (dropStart dropEnd : Date) (prev : list Event) :
  (forall e newStart newEnd, keep (with_times e newStart newEnd) = keep e) ->
  filter keep (apply_move event dropStart dropEnd prev)
  = apply_move event dropStart dropEnd (filter keep prev).
Proof.
  intros Hkeep; unfold apply_move; rewrite filter_map_commute; f_equal.
  apply filter_ext; intros e0.
  destruct (negb _); [reflexivity | apply Hkeep].
Qed.

(** X7: filtering and committing commute.  In either version, the filtered
    view of the updated occurrence set is the updater applied to the filtered
    view of the old set: a move never makes an occurrence appear in or
    disappear from the view. *)
Theorem filtered_view_after_move
  (event : Event) (dropStart dropEnd : Date) (prev : list Event)
  (pf rf gf : list jsval) (p r g : jsval) :
  Multi.filteredEvents
    {| Multi.events := apply_move event dropStart dropEnd prev;
       Multi.professorFilter := pf; Multi.roomFilter := rf;
       Multi.gradeFilter := gf |}
  = apply_move event dropStart dropEnd
      (Multi.filteredEvents
         {| Multi.events := prev; Multi.professorFilter := pf;
            Multi.roomFilter := rf; Multi.gradeFilter := gf |})
  /\ ScheduleCalendar.filteredEvents
       {| ScheduleCalendar.events := apply_move event dropStart dropEnd prev;
          ScheduleCalendar.professorFilter := p;
          ScheduleCalendar.roomFilter := r;
          ScheduleCalendar.gradeFilter := g |}
     = apply_move event dropStart dropEnd
         (ScheduleCalendar.filteredEvents
            {| ScheduleCalendar.events := prev;
               ScheduleCalendar.professorFilter := p;
               ScheduleCalendar.roomFilter := r;
               ScheduleCalendar.gradeFilter := g |}).
Proof.
  unfold Multi.filteredEvents, ScheduleCalendar.filteredEvents; simpl.
  split; apply filter_apply_move; reflexivity.
Qed.

Lemma whole_seconds (s : Z) :
  MakeTime (HourFromTime s) (MinFromTime s) (SecFromTime s) 0
  = TimeWithinDay s - s mod 1000.
Proof. time_arith. Qed.

Lemma In_apply_move (event : Event) (dropStart dropEnd : Date)
  (prev : list Event) (e1 : Event) :
  In e1 (apply_move event dropStart dropEnd prev) ->
  timeSlotId e1 = timeSlotId event ->
  exists e0,
    In e0 prev
    /\ start e1 = setHours (start e0) (getHours dropStart)
                    (getMinutes dropStart) (or_zero (getSeconds dropStart))
                    (Some 0)
    /\ end_ e1 = setHours (end_ e0) (getHours dropEnd) (getMinutes dropEnd)
                   (or_zero (getSeconds dropEnd)) (Some 0).
Proof.
  unfold apply_move; rewrite in_map_iff.
  intros [e0 [He Hin]] Hts; exists e0; split; [assumption|].
  destruct (strict_eq (timeSlotId e0) (timeSlotId event)) eqn:Hslot;
    simpl in He; subst e1.
  - split; reflexivity.
  - apply strict_eq_spec in Hts; congruence.
Qed.

(** X8: after the updater of a move to the instants [s], [e], every
    occurrence of the moved time slot with a valid start has as time within
    its day the time within the day of [s] cut to whole seconds, and
    likewise its end with [e]: the milliseconds of the drop are not kept, and
    all occurrences of the slot show one and the same time of day. *)
Theorem moved_slot_shares_clock
  (event : Event) (s e : Z) (prev : list Event) (e1 : Event) :
  In e1 (apply_move event (Some s) (Some e) prev) ->
  timeSlotId e1 = timeSlotId event ->
  (forall t, start e1 = Some t -> TimeWithinDay t = TimeWithinDay s - s mod 1000)
  /\ (forall t, end_ e1 = Some t -> TimeWithinDay t = TimeWithinDay e - e mod 1000).
Proof.
  intros Hin Hts.
  destruct (In_apply_move _ _ _ _ _ Hin Hts) as [e0 [_ [Hs He]]].
  assert (Hclock : forall (x : Z) (d : Date) (t : Z),
             setHours d (getHours (Some x)) (getMinutes (Some x))
               (or_zero (getSeconds (Some x))) (Some 0) = Some t ->
             TimeWithinDay t = TimeWithinDay x - x mod 1000).
  { intros x [d|] t; simpl; [|discriminate].
    intros [= <-]; rewrite <- whole_seconds.
    destruct (clock_range x) as [Hh [Hm Hsec]].
    pose proof (MakeTime_range _ _ _ Hh Hm Hsec) as Hr.
    revert Hr; generalize (MakeTime (HourFromTime x) (MinFromTime x)
                             (SecFromTime x) 0); intros tod Hr.
    generalize (Day d); intros D; time_arith. }
  split; intros t Ht.
  - apply (Hclock s (start e0)); congruence.
  - apply (Hclock e (end_ e0)); congruence.
Qed.

Lemma moved_slot_shares_clock_witness :
  TimeWithinDay (Sample.monday + 2 * msPerDay + MakeTime 9 30 0 0)
  = TimeWithinDay (Sample.monday + MakeTime 9 30 0 0 + 250)
    - (Sample.monday + MakeTime 9 30 0 0 + 250) mod 1000.
Proof.
  apply (proj1 (moved_slot_shares_clock Sample.cs101_monday
                  (Sample.monday + MakeTime 9 30 0 0 + 250)
                  (Sample.monday + MakeTime 10 30 0 0 + 250)
                  Sample.week
                  (nth 1 (apply_move Sample.cs101_monday
                            (Some (Sample.monday + MakeTime 9 30 0 0 + 250))
                            (Some (Sample.monday + MakeTime 10 30 0 0 + 250))
                            Sample.week)
                     Sample.cs101_monday)
                  ltac:(vm_compute; right; left; reflexivity)
                  ltac:(reflexivity))).
  vm_compute; reflexivity.
Defined.

(** ** The handler as a whole *)

Lemma handleEventDrop_multi_cases (env : Env) (st : Multi.State)
  (event : Event) (dropStart dropEnd : Date) (isAllDay : bool) :
  let o := Multi.handleEventDrop env st event dropStart dropEnd isAllDay in
  let write err :=
    StoreUpdate (timeSlotId event) (toTimeString dropStart)
      (toTimeString dropEnd) err in
  (o = {| effects := [Alert day_notice]; setEvents := None |})
  \/ (exists message,
         o = {| effects := [Confirm message false]; setEvents := None |})
  \/ (exists before err,
         filter is_store_update before = []
         /\ o = {| effects := (before
                               ++ [write (Some err);
                                   ConsoleError "Error updating time in Supabase:" err;
                                   Alert Multi.save_failure_notice])%list;
                   setEvents := None |})
  \/ (exists before,
         filter is_store_update before = []
         /\ o = {| effects := (before ++ [write None])%list;
                   setEvents := Some (apply_move event dropStart dropEnd) |}).
Proof.
  intros o write; subst o write; unfold Multi.handleEventDrop.
  destruct (num_strict_neq _ _); [left; reflexivity|].
  destruct (0 <? _).
  - destruct (confirm env _) eqn:Hc; simpl.
    + unfold Multi.persist.
      destruct (update_time_slot env _ _ _) as [err|].
      * right; right; left; eexists [_], err; split; [|reflexivity]; reflexivity.
      * right; right; right; eexists [_]; split; [|reflexivity]; reflexivity.
    + right; left; eexists; reflexivity.
  - unfold Multi.persist.
    destruct (update_time_slot env _ _ _) as [err|].
    + right; right; left; exists [], err; split; reflexivity.
    + right; right; right; exists []; split; reflexivity.
Qed.

Lemma handleEventDrop_single_cases (env : Env) (st : ScheduleCalendar.State)
  (event : Event) (dropStart dropEnd : Date) (isAllDay : bool) :
  let o := ScheduleCalendar.handleEventDrop env st event dropStart dropEnd
             isAllDay in
  let write err :=
    StoreUpdate (timeSlotId event) (toTimeString dropStart)
      (toTimeString dropEnd) err in
  (exists message, o = {| effects := [Alert message]; setEvents := None |})
  \/ (exists err,
         o = {| effects := [write (Some err);
                            ConsoleError "Error updating time in Supabase:" err;
                            Alert ScheduleCalendar.save_failure_notice];
                setEvents := None |})
  \/ o = {| effects := [write None];
            setEvents := Some (apply_move event dropStart dropEnd) |}.
Proof.
  intros o write; subst o write; unfold ScheduleCalendar.handleEventDrop.
  destruct (num_strict_neq _ _); [left; eexists; reflexivity|].
  destruct (0 <? _); [left; eexists; reflexivity|].
  unfold ScheduleCalendar.persist.
  destruct (update_time_slot env _ _ _) as [err|].
  - right; left; exists err; reflexivity.
  - right; right; reflexivity.
Qed.

Lemma filter_app_singleton_write (before : list Effect) (w : Effect)
  (rest : list Effect) :
  filter is_store_update before = [] ->
  is_store_update w = true ->
  filter is_store_update rest = [] ->
  filter is_store_update (before ++ w :: rest) = [w].
Proof.
  intros Hb Hw Hr; rewrite filter_app, Hb; simpl; rewrite Hw, Hr; reflexivity.
Qed.

(** X9: in both versions, one run of the handler writes to the store at
    most once, and only to the moved event's time slot with the two time
    strings of the drop; [setEvents] is called exactly when that write came
    back without error, and then with the updater of this move: the set in
    memory never changes without a write that succeeded. *)
Theorem memory_follows_store
  (env : Env) (mst : Multi.State) (sst : ScheduleCalendar.State)
  (event : Event) (dropStart dropEnd : Date) (isAllDay : bool) :
  let write err :=
    StoreUpdate (timeSlotId event) (toTimeString dropStart)
      (toTimeString dropEnd) err in
  let safe (o : Outcome) :=
    (filter is_store_update (effects o) = []
     \/ exists err, filter is_store_update (effects o) = [write err])
    /\ (setEvents o <> None <-> In (write None) (effects o))
    /\ (In (write None) (effects o) ->
        setEvents o = Some (apply_move event dropStart dropEnd)) in
  safe (Multi.handleEventDrop env mst event dropStart dropEnd isAllDay)
  /\ safe (ScheduleCalendar.handleEventDrop env sst event dropStart dropEnd
             isAllDay).
Proof.
  intros write safe; subst safe; split.
  - destruct (handleEventDrop_multi_cases env mst event dropStart dropEnd
                isAllDay) as [-> | [[msg ->] | [[before [err [Hb ->]]]
                                             | [before [Hb ->]]]]];
      cbn [effects setEvents].
    + repeat split; try (left; reflexivity); try congruence;
        simpl; intuition discriminate.
    + repeat split; try (left; reflexivity); try congruence;
        simpl; intuition discriminate.
    + assert (Hnot : ~ In (write None)
                       (before ++ [write (Some err);
                                   ConsoleError
                                     "Error updating time in Supabase:" err;
                                   Alert Multi.save_failure_notice])%list).
      { rewrite in_app_iff; intros [Hin | Hin].
        - assert (Hf : In (write None) (filter is_store_update before)).
          { apply filter_In; split; [assumption | reflexivity]. }
          rewrite Hb in Hf; exact Hf.
        - simpl in Hin; subst write; intuition discriminate. }
      split; [|split].
      * right; exists (Some err).
        apply filter_app_singleton_write; [assumption | reflexivity..].
      * split; [congruence | intros H; contradiction].
      * intros H; contradiction.
    + split; [|split].
      * right; exists None.
        apply filter_app_singleton_write; [assumption | reflexivity..].
      * split; [|discriminate].
        intros _; apply in_app_iff; right; left; reflexivity.
      * reflexivity.
  - destruct (handleEventDrop_single_cases env sst event dropStart dropEnd
                isAllDay) as [[msg ->] | [[err ->] | ->]];
      cbn [effects setEvents].
    + repeat split; try (left; reflexivity); try congruence;
        simpl; intuition discriminate.
    + split; [|split].
      * right; exists (Some err); reflexivity.
      * split; [congruence|].
        subst write; simpl; intuition discriminate.
      * subst write; simpl; intuition discriminate.
    + split; [|split].
      * right; exists None; reflexivity.
      * split; [|discriminate]. intros _; left; reflexivity.
      * reflexivity.
Qed.

Lemma memory_follows_store_witness :
  setEvents
    (Multi.handleEventDrop Sample.accepting Sample.multi_state
       Sample.cs101_monday (Some (Sample.monday + MakeTime 11 0 0 0))
       (Some (Sample.monday + MakeTime 12 0 0 0)) false)
  = Some (apply_move Sample.cs101_monday
            (Some (Sample.monday + MakeTime 11 0 0 0))
            (Some (Sample.monday + MakeTime 12 0 0 0))).
Proof.
  apply (proj2 (proj2 (proj1 (memory_follows_store Sample.accepting
                                Sample.multi_state Sample.single_state
                                Sample.cs101_monday _ _ false)))).
  vm_compute; left; reflexivity.
Defined.

(** X10: [src/ScheduleCalendar.jsx] changes the world as the version with
    the dialog does in front of a user who never accepts: on the same
    occurrence set and the same drop, both issue the same store writes and
    call [setEvents] with the same updater or not at all. *)
Theorem single_is_multi_declined
  (env : Env) (mst : Multi.State) (sst : ScheduleCalendar.State)
  (event : Event) (dropStart dropEnd : Date) (isAllDay : bool) :
  ScheduleCalendar.events sst = Multi.events mst ->
  let o1 := ScheduleCalendar.handleEventDrop env sst event dropStart dropEnd
              isAllDay in
  let o2 := Multi.handleEventDrop (never_accepting env) mst event dropStart
              dropEnd isAllDay in
  filter is_store_update (effects o1) = filter is_store_update (effects o2)
  /\ setEvents o1 = setEvents o2.
Proof.
  intros Hev o1 o2; subst o1 o2.
  unfold ScheduleCalendar.handleEventDrop, Multi.handleEventDrop.
  rewrite Hev.
  destruct (num_strict_neq _ _); [split; reflexivity|].
  destruct (0 <? _); [split; reflexivity|].
  unfold ScheduleCalendar.persist, Multi.persist; simpl.
  destruct (update_time_slot env _ _ _); split; reflexivity.
Qed.

Lemma single_is_multi_declined_witness :
  setEvents
    (ScheduleCalendar.handleEventDrop Sample.accepting Sample.single_state
       Sample.cs101_monday (Some (Sample.monday + MakeTime 9 30 0 0))
       (Some (Sample.monday + MakeTime 10 30 0 0)) false)
  = setEvents
      (Multi.handleEventDrop (never_accepting Sample.accepting)
         Sample.multi_state Sample.cs101_monday
         (Some (Sample.monday + MakeTime 9 30 0 0))
         (Some (Sample.monday + MakeTime 10 30 0 0)) false).
Proof.
  apply (single_is_multi_declined Sample.accepting Sample.multi_state
           Sample.single_state).
  reflexivity.
Defined.

(** ** The conflict list *)

Lemma strict_eq_sym (a b : jsval) : strict_eq a b = strict_eq b a.
Proof.
  destruct a, b; simpl; try reflexivity.
  - apply Z.eqb_sym.
  - apply String.eqb_sym.
Qed.

Lemma strict_eq_false (a b : jsval) : strict_eq a b = false <-> a <> b.
Proof.
  split.
  - intros H Heq; apply strict_eq_spec in Heq; congruence.
  - intros H; destruct (strict_eq a b) eqn:E; [|reflexivity].
    apply strict_eq_spec in E; contradiction.
Qed.

(** X11: the conflict test is symmetric: an occurrence [b] gives a
    candidate [a] as many entries as [a] would give [b] as a candidate. *)
Theorem conflicts_with_symmetric (a b : Event) :
  List.length (conflicts_with a b) = List.length (conflicts_with b a).
Proof.
  unfold conflicts_with.
  rewrite (String.eqb_sym (id b) (id a)).
  rewrite (timesOverlap_sym (start a) (end_ a) (start b) (end_ b)).
  rewrite (strict_eq_sym (professor a)), (strict_eq_sym (room a)),
    (strict_eq_sym (gradeLevel a)).
  destruct (String.eqb (id a) (id b)); [reflexivity|].
  destruct (timesOverlap _ _ _ _); simpl; [|reflexivity].
  destruct (strict_eq _ _), (strict_eq _ _), (strict_eq _ _); reflexivity.
Qed.

(** X12: the conflict list of a candidate is empty, so that the move goes
    to the store without a dialog or alert, exactly when every occurrence of
    the set has the candidate's id, or does not overlap the candidate, or
    differs from it in professor, room and grade level. *)
Theorem no_conflicts_iff (events : list Event) (movedEvent : Event) :
  detect_conflicts events movedEvent = []
  <-> forall other,
        In other events ->
        id other = id movedEvent
        \/ timesOverlap (start movedEvent) (end_ movedEvent)
             (start other) (end_ other) = false
        \/ (professor movedEvent <> professor other
            /\ room movedEvent <> room other
            /\ gradeLevel movedEvent <> gradeLevel other).
Proof.
  assert (Hone : forall other,
             conflicts_with movedEvent other = []
             <-> id other = id movedEvent
                 \/ timesOverlap (start movedEvent) (end_ movedEvent)
                      (start other) (end_ other) = false
                 \/ (professor movedEvent <> professor other
                     /\ room movedEvent <> room other
                     /\ gradeLevel movedEvent <> gradeLevel other)).
  { intros other; unfold conflicts_with.
    destruct (String.eqb (id other) (id movedEvent)) eqn:Hid.
    { apply String.eqb_eq in Hid; tauto. }
    apply String.eqb_neq in Hid.
    destruct (timesOverlap _ _ _ _); simpl; [|tauto].
    destruct (strict_eq (professor movedEvent) (professor other)) eqn:Hp;
      destruct (strict_eq (room movedEvent) (room other)) eqn:Hr;
      destruct (strict_eq (gradeLevel movedEvent) (gradeLevel other)) eqn:Hg;
      simpl;
      repeat match goal with
             | H : strict_eq _ _ = true |- _ => apply strict_eq_spec in H
             | H : strict_eq ?x ?y = false |- _ =>
                 apply strict_eq_false in H
             end;
      split; intros Hgoal; try discriminate; try tauto;
      destruct Hgoal as [Hgoal | [Hgoal | [H1 [H2 H3]]]];
      try contradiction; try discriminate. }
  unfold detect_conflicts; split.
  - intros Hnil other Hin; apply Hone.
    induction events as [| o events IH]; [destruct Hin|].
    simpl in Hnil; apply app_eq_nil in Hnil as [Ho Hrest].
    destruct Hin as [<- | Hin]; [assumption | apply IH; assumption].
  - intros Hall.
    induction events as [| o events IH]; [reflexivity|]; simpl.
    rewrite (proj2 (Hone o) (Hall o (or_introl eq_refl))); simpl.
    apply IH; intros other Hin; apply Hall; now right.
Qed.

Lemma no_conflicts_iff_witness :
  detect_conflicts Sample.week
    (moved Sample.cs101_monday (Some (Sample.monday + MakeTime 11 0 0 0))
       (Some (Sample.monday + MakeTime 12 0 0 0)) false)
  = [].
Proof.
  apply (proj2 (no_conflicts_iff Sample.week _)).
  intros other Hin.
  vm_compute in Hin.
  destruct Hin as [<- | [<- | [<- | []]]].
  - left; reflexivity.
  - right; left; vm_compute; reflexivity.
  - right; left; vm_compute; reflexivity.
Defined.

(** X13: the all-day flag of a drop is not looked at: in both versions the
    handler gives the same outcome whether it is set or not. *)
Theorem all_day_flag_ignored
  (env : Env) (mst : Multi.State) (sst : ScheduleCalendar.State)
  (event : Event) (dropStart dropEnd : Date) :
  Multi.handleEventDrop env mst event dropStart dropEnd true
  = Multi.handleEventDrop env mst event dropStart dropEnd false
  /\ ScheduleCalendar.handleEventDrop env sst event dropStart dropEnd true
     = ScheduleCalendar.handleEventDrop env sst event dropStart dropEnd false.
Proof.
  assert (Hsame : forall events,
             detect_conflicts events (moved event dropStart dropEnd true)
             = detect_conflicts events (moved event dropStart dropEnd false)).
  { intros events; unfold detect_conflicts.
    apply flat_map_ext; intros other; reflexivity. }
  unfold Multi.handleEventDrop, ScheduleCalendar.handleEventDrop.
  rewrite !Hsame; split; reflexivity.
Qed.

(** ** Occurrences with unusual times *)

Lemma at_time_one_component (d : Date) (time x : string) :
  split_colon time = [x] -> at_time d time = None.
Proof.
  intros Hsplit; unfold at_time; rewrite Hsplit; simpl.
  destruct d, (Number x); reflexivity.
Qed.

Lemma timesOverlap_invalid_start (a b d : Date) :
  timesOverlap a b None d = false.
Proof.
  unfold timesOverlap, date_gt, date_lt.
  apply andb_false_r.
Qed.

(** X14: a row whose start time has no colon (an hour alone) still gives
    its occurrences, but with Invalid Date as start; such an occurrence is
    never part of a conflict list, and a drop of it is rejected with the day
    notice in both versions, wherever it is dropped. *)
Theorem hour_only_start_is_invalid
  (now : Date) (row : Row) (x : string) (e : Event) :
  split_colon (start_time row) = [x] ->
  In e (rowsToEvents now [row]) ->
  start e = None
  /\ (forall movedEvent, conflicts_with movedEvent e = [])
  /\ (forall env mst sst dropStart dropEnd isAllDay,
         Multi.handleEventDrop env mst e dropStart dropEnd isAllDay
         = {| effects := [Alert day_notice]; setEvents := None |}
         /\ ScheduleCalendar.handleEventDrop env sst e dropStart dropEnd
              isAllDay
            = {| effects := [Alert day_notice]; setEvents := None |}).
Proof.
  intros Hsplit Hin.
  assert (Hstart : start e = None).
  { unfold rowsToEvents in Hin; simpl in Hin; rewrite app_nil_r in Hin.
    unfold events_of_row in Hin; apply in_flat_map in Hin as [code [_ Hin]].
    unfold events_of_code in Hin.
    destruct (DAY_MAP code); [|destruct Hin].
    destruct Hin as [<- | []]; simpl.
    apply (at_time_one_component _ _ x Hsplit). }
  repeat split.
  - exact Hstart.
  - intros movedEvent; apply conflicts_with_apart.
    rewrite Hstart; apply timesOverlap_invalid_start.
  - unfold Multi.handleEventDrop; rewrite Hstart; reflexivity.
  - unfold ScheduleCalendar.handleEventDrop; rewrite Hstart; reflexivity.
Qed.

Lemma hour_only_start_is_invalid_witness :
  start (nth 0 (rowsToEvents (Some Sample.now)
                  [Sample.section 6 600 (Some "F") "9" "10:00:00" "BI120"
                     "Ode" "Lab 1" 2])
           Sample.cs101_monday)
  = None.
Proof.
  apply (hour_only_start_is_invalid (Some Sample.now)
           (Sample.section 6 600 (Some "F") "9" "10:00:00" "BI120" "Ode"
              "Lab 1" 2)
           "9").
  - reflexivity.
  - vm_compute; left; reflexivity.
Defined.

Lemma In_rowsToEvents_row (now : Z) (rows : list Row) (e : Event) :
  In e (rowsToEvents (Some now) rows) ->
  exists row,
    In row rows
    /\ In e (events_of_row (Some (MakeDate (week_monday now) 0)) row).
Proof.
  unfold rowsToEvents; rewrite getWeekStart_valid, in_flat_map; trivial.
Qed.

(** X15: the occurrences built from rows whose start is earlier than their
    end, the end no later than 24:00:00, all have a valid start and end, the
    start before the end and the end no later than the midnight that closes
    the day of the start; they start on a weekday from Monday (1) to Friday
    (5), and lie between the week anchor and the midnight five days after
    it. *)
Theorem occurrences_within_work_week
  (now m : Z) (rows : list Row) (e : Event) :
  Forall well_timed rows ->
  getWeekStart (Some now) = Some m ->
  In e (rowsToEvents (Some now) rows) ->
  exists ts te,
    start e = Some ts
    /\ end_ e = Some te
    /\ ts < te
    /\ te <= (Day ts + 1) * msPerDay
    /\ 1 <= WeekDay ts <= 5
    /\ m <= ts
    /\ te <= m + 5 * msPerDay.
Proof.
  intros Hall Hm Hin.
  rewrite getWeekStart_valid in Hm; injection Hm as <-.
  apply In_rowsToEvents_row in Hin as [row [Hrow Hin]].
  rewrite Forall_forall in Hall.
  destruct (In_events_of_row_timed now row e (Hall row Hrow) Hin)
    as [code [wd [a [b [Hmap [_ [Hs [He [Hab Hb]]]]]]]]].
  pose proof (DAY_MAP_range _ _ Hmap) as Hwd.
  exists (MakeDate (week_monday now + (wd - 1)) a),
    (MakeDate (week_monday now + (wd - 1)) b).
  split; [exact Hs|]; split; [exact He|].
  destruct (week_monday_spec now) as [Hmon _].
  unfold WeekDay in *.
  rewrite Day_MakeDate in Hmon by (unfold msPerDay; lia).
  rewrite !Day_MakeDate by lia.
  revert Hmon; generalize (week_monday now); intros W Hmon.
  unfold MakeDate, msPerDay in *.
  repeat split; try lia; Z.div_mod_to_equations; lia.
Qed.

Lemma occurrences_within_work_week_witness :
  exists ts te,
    start (nth 1 Sample.week Sample.cs101_monday) = Some ts
    /\ end_ (nth 1 Sample.week Sample.cs101_monday) = Some te
    /\ ts < te
    /\ te <= (Day ts + 1) * msPerDay
    /\ 1 <= WeekDay ts <= 5
    /\ Sample.monday <= ts
    /\ te <= Sample.monday + 5 * msPerDay.
Proof.
  apply (occurrences_within_work_week Sample.now Sample.monday
           [Sample.cs101; Sample.ma201]).
  - constructor; [|constructor; [|constructor]].
    + exists (MakeTime 9 0 0 0), (MakeTime 10 0 0 0).
      repeat split; vm_compute; congruence.
    + exists (MakeTime 9 30 0 0), (MakeTime 10 30 0 0).
      repeat split; vm_compute; congruence.
  - vm_compute; reflexivity.
  - vm_compute; right; left; reflexivity.
Defined.



(** ** Facet lists *)

Lemma distinct_from_In (seen a : list jsval) (v : jsval) :
  In v (distinct_from seen a) <-> In v a /\ ~ In v seen.
Proof.
  revert seen; induction a as [| x a IH]; intros seen; simpl; [tauto|].
  destruct (includes seen x) eqn:Hinc.
  - apply includes_spec in Hinc; rewrite IH.
    split; [tauto|].
    intros [[-> | Hin] Hn]; [contradiction | tauto].
  - assert (Hx : ~ In x seen).
    { intros H; apply includes_spec in H; congruence. }
    simpl; rewrite IH; simpl.
    destruct (jsval_eq_dec x v) as [-> | Hne]; [tauto|].
    intuition congruence.
Qed.

Lemma distinct_from_NoDup (seen a : list jsval) :
  NoDup (distinct_from seen a).
Proof.
  revert seen; induction a as [| x a IH]; intros seen; simpl;
    [constructor|].
  destruct (includes seen x); [apply IH|].
  constructor; [|apply IH].
  rewrite distinct_from_In; simpl; tauto.
Qed.

Lemma distinct_from_app (seen a b : list jsval) :
  exists seen',
    distinct_from seen (a ++ b)
    = (distinct_from seen a ++ distinct_from seen' b)%list.
Proof.
  revert seen; induction a as [| x a IH]; intros seen; simpl.
  - exists seen; reflexivity.
  - destruct (includes seen x).
    + apply IH.
    + destruct (IH (x :: seen)) as [seen' ->]; exists seen'; reflexivity.
Qed.

Lemma insert_sorted_Permutation (x : jsval) (l : list jsval) :
  Permutation (insert_sorted x l) (x :: l).
Proof.
  induction l as [| y l IH]; simpl; [apply Permutation_refl|].
  destruct (String.leb (ToString x) (ToString y)); [apply Permutation_refl|].
  eapply Permutation_trans; [apply perm_skip, IH | apply perm_swap].
Qed.

Lemma default_sort_Permutation (l : list jsval) :
  Permutation (default_sort l) l.
Proof.
  induction l as [| x l IH]; simpl; [constructor|].
  eapply Permutation_trans; [apply insert_sorted_Permutation|].
  apply perm_skip, IH.
Qed.



Lemma facet_members (field : Event -> jsval) (evs : list Event) (v : jsval) :
  In v (distinct (map field evs)) <-> exists e, In e evs /\ field e = v.
Proof.
  unfold distinct; rewrite distinct_from_In, in_map_iff; simpl.
  split.
  - intros [[e [He Hin]] _]; exists e; tauto.
  - intros [e [Hin He]]; split; [exists e; tauto | tauto].
Qed.


(** X18: in [src/ScheduleCalendar.jsx] each facet list holds every value
    of the occurrence set once and nothing else, in the order in which the
    values first appear: the list for a set with more occurrences at its end
    starts with the list for the set without them. *)
Theorem facet_lists_first_seen (evs more : list Event) (p r g : jsval) :
  let st l :=
    {| ScheduleCalendar.events := l; ScheduleCalendar.professorFilter := p;
       ScheduleCalendar.roomFilter := r; ScheduleCalendar.gradeFilter := g |} in
  let facet_ok (field : Event -> jsval)
               (facet : ScheduleCalendar.State -> list jsval) :=
    NoDup (facet (st evs))
    /\ (forall v, In v (facet (st evs)) <-> exists e, In e evs /\ field e = v)
    /\ exists added,
        facet (st (evs ++ more)%list) = (facet (st evs) ++ added)%list in
  facet_ok professor ScheduleCalendar.professors
  /\ facet_ok room ScheduleCalendar.rooms
  /\ facet_ok gradeLevel ScheduleCalendar.grades.
Proof.
  assert (Hall : forall field,
             NoDup (distinct (map field evs))
             /\ (forall v,
                    In v (distinct (map field evs))
                    <-> exists e, In e evs /\ field e = v)
             /\ exists added,
                 distinct (map field (evs ++ more))
                 = (distinct (map field evs) ++ added)%list).
  { intros field; split; [apply distinct_from_NoDup|].
    split; [apply facet_members|].
    rewrite map_app; unfold distinct.
    destruct (distinct_from_app [] (map field evs) (map field more))
      as [seen' ->].
    eexists; reflexivity. }
  intros st facet_ok; subst st facet_ok; cbv beta.
  unfold ScheduleCalendar.professors, ScheduleCalendar.rooms,
    ScheduleCalendar.grades; simpl.
  split; [apply Hall | split; apply Hall].
Qed.

Lemma multi_keeps_professor_only (evs : list Event) (v : jsval) (e : Event) :
  Multi.keeps
    {| Multi.events := evs; Multi.professorFilter := [v];
       Multi.roomFilter := []; Multi.gradeFilter := [] |} e
  = strict_eq (professor e) v.
Proof.
  unfold Multi.keeps, includes; simpl.
  destruct (strict_eq (professor e) v); reflexivity.
Qed.

(** X19: every entry of the professor list can be ticked to some effect:
    with that professor alone selected and no room or grade selected, the
    filtered view is not empty and holds exactly the occurrences of that
    professor. *)
Theorem facet_value_selects (st : Multi.State) (v : jsval) :
  In v (Multi.professors st) ->
  let shown :=
    Multi.filteredEvents
      {| Multi.events := Multi.events st; Multi.professorFilter := [v];
         Multi.roomFilter := []; Multi.gradeFilter := [] |} in
  shown <> []
  /\ forall e, In e shown <-> In e (Multi.events st) /\ professor e = v.
Proof.
  intros Hv shown.
  assert (Hshown : forall e,
             In e shown <-> In e (Multi.events st) /\ professor e = v).
  { intros e; subst shown; unfold Multi.filteredEvents; simpl.
    rewrite filter_In, multi_keeps_professor_only, strict_eq_spec.
    reflexivity. }
  split; [|exact Hshown].
  unfold Multi.professors in Hv.
  apply (Permutation_in _ (default_sort_Permutation _)) in Hv.
  apply facet_members in Hv as [e He].
  intros Hnil; apply Hshown in He; rewrite Hnil in He; exact He.
Qed.

Lemma facet_value_selects_witness :
  In (nth 2 Sample.week Sample.cs101_monday)
    (Multi.filteredEvents
       {| Multi.events := Sample.week; Multi.professorFilter := [JStr "Kim"];
          Multi.roomFilter := []; Multi.gradeFilter := [] |}).
Proof.
  apply (proj2 (facet_value_selects Sample.multi_state (JStr "Kim")
                  ltac:(vm_compute; left; reflexivity))).
  split.
  - vm_compute; right; right; left; reflexivity.
  - reflexivity.
Defined.

(** ** Selections *)

Lemma filtered_same_selection (evs : list Event) (pf pf' rf gf : list jsval) :
  (forall v, In v pf <-> In v pf') ->
  Multi.filteredEvents
    {| Multi.events := evs; Multi.professorFilter := pf;
       Multi.roomFilter := rf; Multi.gradeFilter := gf |}
  = Multi.filteredEvents
      {| Multi.events := evs; Multi.professorFilter := pf';
         Multi.roomFilter := rf; Multi.gradeFilter := gf |}.
Proof.
  intros Hp; unfold Multi.filteredEvents; simpl.
  apply filter_ext; intros e.
  apply eq_true_iff_eq.
  rewrite !keeps_spec; simpl.
  rewrite (same_members_nil _ _ Hp), (Hp (professor e)); reflexivity.
Qed.

Lemma filter_keeps_NoDup {A} (f : A -> bool) (l : list A) :
  NoDup l -> NoDup (filter f l).
Proof.
  induction 1 as [| x l Hx _ IH]; simpl; [constructor|].
  destruct (f x); [|exact IH].
  constructor; [|exact IH].
  rewrite filter_In; tauto.
Qed.

(** X20: [toggleFilterValue] with the value of the "All" box empties the
    selection; with any other value it takes that value out of the selection
    when it is in it and puts it in when it is not, leaving every other
    value in or out as it was, and a selection without repeated values stays
    without repeated values. *)
Theorem toggleFilterValue_flips (v : jsval) (prev : list jsval) :
  Multi.toggleFilterValue (JStr "__ALL__") prev = []
  /\ (v <> JStr "__ALL__" ->
      (forall x,
          In x (Multi.toggleFilterValue v prev)
          <-> (In x prev /\ x <> v) \/ (x = v /\ ~ In v prev))
      /\ (NoDup prev -> NoDup (Multi.toggleFilterValue v prev))).
Proof.
  split; [reflexivity|].
  intros Hv; split.
  - intros x; apply toggleFilterValue_In; exact Hv.
  - intros Hnd; unfold Multi.toggleFilterValue.
    apply strict_eq_false in Hv; rewrite Hv.
    destruct prev as [| a prev'] eqn:Hprev.
    + constructor; [intros [] | constructor].
    + rewrite <- Hprev in *; clear Hprev.
      destruct (includes prev v) eqn:Hinc.
      * apply filter_keeps_NoDup; exact Hnd.
      * apply NoDup_app; [exact Hnd | constructor; [intros [] | constructor]|].
        intros x Hin [<- | []].
        apply includes_spec in Hin; congruence.
Qed.

Lemma toggleFilterValue_flips_witness :
  NoDup (Multi.toggleFilterValue (JStr "Kim") [JStr "Lee"]).
Proof.
  apply (proj2 (toggleFilterValue_flips (JStr "Kim") [JStr "Lee"])).
  - discriminate.
  - constructor; [intros [] | constructor].
Defined.

(** X21: ticking a value and ticking it again gives back the filtered view
    there was (the selection may come back in another order), and unticking
    the only selected value gives the empty selection, which shows
    everything. *)
Theorem toggle_twice_same_view
  (v : jsval) (evs : list Event) (pf rf gf : list jsval) :
  v <> JStr "__ALL__" ->
  Multi.filteredEvents
    {| Multi.events := evs;
       Multi.professorFilter :=
         Multi.toggleFilterValue v (Multi.toggleFilterValue v pf);
       Multi.roomFilter := rf; Multi.gradeFilter := gf |}
  = Multi.filteredEvents
      {| Multi.events := evs; Multi.professorFilter := pf;
         Multi.roomFilter := rf; Multi.gradeFilter := gf |}
  /\ Multi.toggleFilterValue v [v] = [].
Proof.
  intros Hv; split.
  - apply filtered_same_selection; intros x.
    rewrite !toggleFilterValue_In by exact Hv.
    destruct (in_dec jsval_eq_dec v pf), (jsval_eq_dec x v);
      subst; intuition congruence.
  - unfold Multi.toggleFilterValue, includes; simpl.
    apply strict_eq_false in Hv; rewrite Hv, strict_eq_refl; reflexivity.
Qed.

Lemma toggle_twice_same_view_witness :
  Multi.toggleFilterValue (JStr "Lee") [JStr "Lee"] = [].
Proof.
  apply (proj2 (toggle_twice_same_view (JStr "Lee") Sample.week [] [] []
                  ltac:(discriminate))).
Defined.

(** X22: the single-value filters of [src/ScheduleCalendar.jsx] show what
    the multi-select filters show when each facet's selection is empty for
    the choice "all" and holds just the chosen value otherwise. *)
Theorem single_filter_is_singleton_selection
  (evs : list Event) (p r g : jsval) :
  ScheduleCalendar.filteredEvents
    {| ScheduleCalendar.events := evs; ScheduleCalendar.professorFilter := p;
       ScheduleCalendar.roomFilter := r; ScheduleCalendar.gradeFilter := g |}
  = Multi.filteredEvents
      {| Multi.events := evs; Multi.professorFilter := selection_of p;
         Multi.roomFilter := selection_of r;
         Multi.gradeFilter := selection_of g |}.
Proof.
  unfold ScheduleCalendar.filteredEvents, Multi.filteredEvents; simpl.
  apply filter_ext; intros e.
  unfold ScheduleCalendar.keeps, Multi.keeps, ScheduleCalendar.strict_neq,
    selection_of, includes; simpl.
  destruct (strict_eq p (JStr "all")), (strict_eq r (JStr "all")),
    (strict_eq g (JStr "all")); simpl;
    destruct (strict_eq (professor e) p), (strict_eq (room e) r),
      (strict_eq (gradeLevel e) g); reflexivity.
Qed.

(** ** The length of a moved occurrence *)

(** X23: the updater sets the new clock on the day each end of an
    occurrence is on, not on the days of the drop: an occurrence of the moved
    slot whose start and end were on one calendar day has them on that day
    afterwards, and its end minus its start is the time within the day of the
    dropped end minus that of the dropped start (both cut to whole seconds),
    which is negative when the drop ends after midnight at an earlier clock
    than it starts. *)
Theorem moved_length_is_clock_difference
  (event : Event) (s e : Z) (prev : list Event) :
  Forall2
    (fun e0 e1 =>
       timeSlotId e0 = timeSlotId event ->
       forall ts te,
         start e0 = Some ts -> end_ e0 = Some te -> Day ts = Day te ->
         exists ts' te',
           start e1 = Some ts' /\ end_ e1 = Some te'
           /\ Day ts' = Day ts /\ Day te' = Day ts
           /\ te' - ts'
              = (TimeWithinDay e - e mod 1000) - (TimeWithinDay s - s mod 1000))
    prev (apply_move event (Some s) (Some e) prev).
Proof.
  unfold apply_move.
  induction prev as [| e0 prev IH]; simpl; constructor; [|exact IH].
  intros Hts ts te Hs He Hday.
  rewrite Hts, strict_eq_refl; simpl.
  rewrite Hs, He; simpl.
  destruct (clock_range s) as [Hsh [Hsm Hss]].
  destruct (clock_range e) as [Heh [Hem Hes]].
  pose proof (MakeTime_range _ _ _ Hsh Hsm Hss) as Hrs.
  pose proof (MakeTime_range _ _ _ Heh Hem Hes) as Hre.
  eexists; eexists; split; [reflexivity|]; split; [reflexivity|].
  rewrite !Day_MakeDate by assumption.
  rewrite <- !whole_seconds, <- Hday.
  repeat split; unfold MakeDate; lia.
Qed.

Lemma moved_length_is_clock_difference_witness :
  exists ts' te',
    start (nth 0 (apply_move Sample.cs101_monday
                    (Some (Sample.monday + MakeTime 23 30 0 0))
                    (Some (Sample.monday + MakeTime 24 30 0 0))
                    [Sample.cs101_monday])
             Sample.cs101_monday) = Some ts'
    /\ end_ (nth 0 (apply_move Sample.cs101_monday
                      (Some (Sample.monday + MakeTime 23 30 0 0))
                      (Some (Sample.monday + MakeTime 24 30 0 0))
                      [Sample.cs101_monday])
               Sample.cs101_monday) = Some te'
    /\ Day ts' = Day (Sample.monday + MakeTime 9 0 0 0)
    /\ Day te' = Day (Sample.monday + MakeTime 9 0 0 0)
    /\ te' - ts'
       = (TimeWithinDay (Sample.monday + MakeTime 24 30 0 0)
          - (Sample.monday + MakeTime 24 30 0 0) mod 1000)
         - (TimeWithinDay (Sample.monday + MakeTime 23 30 0 0)
            - (Sample.monday + MakeTime 23 30 0 0) mod 1000).
Proof.
  pose proof (moved_length_is_clock_difference Sample.cs101_monday
                (Sample.monday + MakeTime 23 30 0 0)
                (Sample.monday + MakeTime 24 30 0 0)
                [Sample.cs101_monday]) as H.
  inversion H as [| e0 e1 l l' Hhead _ Heq0 Heq1]; subst.
  apply (Hhead eq_refl _ _ eq_refl eq_refl eq_refl).
Defined.

(** Dropped on Monday 23:30 to Tuesday 00:30, Monday's CS101 ends 23 hours
    before it starts. *)
Example sample_drop_over_midnight :
  map (fun e => (toTimeString (start e), toTimeString (end_ e),
                 getDay (start e), getDay (end_ e)))
    (apply_move Sample.cs101_monday
       (Some (Sample.monday + MakeTime 23 30 0 0))
       (Some (Sample.monday + MakeTime 24 30 0 0)) [Sample.cs101_monday])
  = [("23:30:00", "00:30:00", Some 1, Some 1)].
Proof. vm_compute; reflexivity. Qed.
